(** * BitNBuild backend: the image-to-palette pipeline

    A shallow embedding of [src/backend/image_to_palette.py].  The one
    function of that file, [extract_palette], decodes an image, bounds the
    number of clusters, runs k-means, ranks the clusters by population and
    prints every centroid as a hex, an rgb and an hsl string.

    Conventions of the embedding:
    - Python [int] is [Z]; array indices, labels and bin counts are [nat];
    - a float64 is the rational it denotes ([Q]) and arithmetic on floats is
      exact arithmetic on rationals (the rounding error of a float operation
      is not modelled); [astype(int)] and the [.0f] format are written out on
      rationals;
    - a raised exception is the [Raise] case of [result]; state that survives
      a call (numpy's global generator, standard output) is a [World];
    - PIL, scikit-learn and the sort behind [np.argsort] are not part of the
      repository: they are the fields of a [Libs] record, and every property
      a theorem needs from them is a hypothesis of that theorem.  [RefLibs]
      is a small executable instance used to run the pipeline on concrete
      images;
    - [colour.RGB_to_HSL] is written out from the transform the
      specification names. *)

From Stdlib Require Import ZArith QArith Qround Qabs Qfield List String Ascii Bool Arith Lia Lqa.
From Stdlib Require Import Permutation Sorted DecimalString HexadecimalString DecimalZ HexadecimalZ.
Import ListNotations.

Open Scope string_scope.
Open Scope Z_scope.

(** ** Exceptions and the state of the interpreter *)

Record exn : Type := Exception { exn_class : string; exn_message : string }.

Inductive result (A : Type) : Type :=
| Ok (a : A)
| Raise (e : exn).

Arguments Ok {A} a.
Arguments Raise {A} e.

(** The state of numpy's generator, as a number. *)
Definition RandomState : Type := N.

Record World : Type := {
  np_random : RandomState;   (* the process-wide generator behind np.random *)
  stdout : list string       (* lines printed so far *)
}.

Definition M (A : Type) : Type := World -> result A * World.

Definition ret {A} (a : A) : M A := fun w => (Ok a, w).

Definition bind {A B} (m : M A) (k : A -> M B) : M B :=
  fun w => match m w with
           | (Ok a, w') => k a w'
           | (Raise e, w') => (Raise e, w')
           end.

Definition lift {A} (r : result A) : M A := fun w => (r, w).

Definition print (line : string) : M unit :=
  fun w => (Ok tt, {| np_random := np_random w; stdout := stdout w ++ [line] |}).

Declare Scope py_scope.
Delimit Scope py_scope with py.
Notation "x <- m ;; k" := (bind m (fun x => k))
  (at level 100, m at next level, right associativity) : py_scope.
Open Scope py_scope.

(** ** Data *)

Definition pixel : Type := (Z * Z * Z).      (* one row of the uint8 array *)
Definition centroid : Type := (Q * Q * Q).   (* one row of cluster_centers_ *)

Record Image : Type := {
  width : nat;
  height : nat;
  data : list pixel          (* row-major, width * height rows *)
}.

Record KMeans : Type := {
  n_clusters : Z;
  random_state : option Z;
  n_init : Z;
  max_iter : Z
}.

Record Fitted : Type := {
  cluster_centers_ : list centroid;
  labels_ : list nat
}.

Record PaletteEntry : Type := {
  hex : string;
  rgb : string;
  hsl : string;
  frequency : Z
}.

Definition Palette : Type := list PaletteEntry.

(** The libraries the module imports and does not define. *)
Record Libs : Type := {
  (* Image.open(image_file).convert(mode RGB) *)
  Image_open : string -> result Image;
  (* img.thumbnail(size), as the image it leaves behind *)
  thumbnail : Image -> nat * nat -> Image;
  (* np.random.RandomState(seed) *)
  RandomState_seed : Z -> RandomState;
  (* the body of KMeans.fit, run on a given generator *)
  kmeans_fit : KMeans -> RandomState -> list pixel -> result Fitted * RandomState;
  (* np.argsort(v) with the default sort kind, which promises ascending keys
     and no particular order among equal keys *)
  argsort : list nat -> list nat
}.

(** ** numpy *)

Module Np.

Definition pixel_compare (p q : pixel) : comparison :=
  let '(r1, g1, b1) := p in
  let '(r2, g2, b2) := q in
  match r1 ?= r2 with
  | Eq => match g1 ?= g2 with
          | Eq => b1 ?= b2
          | c => c
          end
  | c => c
  end.

Fixpoint insert_unique (p : pixel) (l : list pixel) : list pixel :=
  match l with
  | [] => [p]
  | q :: t => match pixel_compare p q with
              | Lt => p :: q :: t
              | Eq => q :: t
              | Gt => q :: insert_unique p t
              end
  end.

(** [np.unique(pixels, axis=0)]: the distinct rows, sorted. *)
Definition unique (pixels : list pixel) : list pixel :=
  fold_right insert_unique [] pixels.

(** [np.bincount(labels)]: [out[n]] is the number of occurrences of [n],
    for [n] up to the largest label; empty for no labels. *)
Definition bincount (labels : list nat) : list nat :=
  let bins := match labels with
              | [] => O
              | _ => S (list_max labels)
              end in
  map (fun n => count_occ Nat.eq_dec labels n) (seq 0 bins).

Definition key (v : list nat) (i : nat) : nat := nth i v O.

Definition is_permutation_of_range (idx : list nat) (n : nat) : bool :=
  (List.length idx =? n)%nat
  && forallb (fun i => existsb (Nat.eqb i) idx) (seq 0 n).

Fixpoint adjacent (before : nat -> nat -> bool) (l : list nat) : bool :=
  match l with
  | a :: t => match t with
              | b :: _ => before a b && adjacent before t
              | [] => true
              end
  | [] => true
  end.

(** What [np.argsort] promises of its result [idx] on the array [v]: every
    index once, keys ascending. *)
Definition argsort_ok (v idx : list nat) : bool :=
  is_permutation_of_range idx (List.length v)
  && adjacent (fun i j => key v i <=? key v j)%nat idx.

(** What a stable sort adds: equal keys stay in index order. *)
Definition argsort_stable (v idx : list nat) : bool :=
  adjacent (fun i j => (key v i <? key v j) || ((key v i =? key v j) && (i <? j)))%nat idx.

(** [a[idx]] with an index array: IndexError when an index is out of range. *)
Fixpoint take {A} (a : list A) (idx : list nat) : result (list A) :=
  match idx with
  | [] => Ok []
  | i :: rest =>
      match nth_error a i with
      | None => Raise (Exception "IndexError" "index out of bounds")
      | Some x => match take a rest with
                  | Ok xs => Ok (x :: xs)
                  | Raise e => Raise e
                  end
      end
  end.

(** [a[i]] with one index. *)
Definition item {A} (a : list A) (i : nat) : result A :=
  match nth_error a i with
  | None => Raise (Exception "IndexError" "index out of bounds")
  | Some x => Ok x
  end.

(** [x.astype(int)] on one float: the fraction is dropped, toward zero. *)
Definition astype_int (x : Q) : Z := Z.quot (Qnum x) (Zpos (Qden x)).

Definition astype_int_row (c : centroid) : pixel :=
  let '(r, g, b) := c in (astype_int r, astype_int g, astype_int b).

End Np.

(** ** Python string formatting *)

Module Fmt.

(** [str(z)] and the [{z}] field of an f-string. *)
Definition str (z : Z) : string := DecimalString.NilZero.string_of_int (Z.to_int z).

Fixpoint zeros (n : nat) : string :=
  match n with
  | O => EmptyString
  | S n' => String "0" (zeros n')
  end.

Definition zfill (w : nat) (s : string) : string :=
  zeros (w - String.length s) ++ s.

(** [{z:02x}]: lowercase hexadecimal, zero-padded to two columns, the sign
    counted in the width. *)
Definition x02 (z : Z) : string :=
  let digits := HexadecimalString.NilZero.string_of_uint (N.to_hex_uint (Z.abs_N z)) in
  if z <? 0 then "-" ++ zfill 1 digits else zfill 2 digits.

Definition upper_ascii (c : ascii) : ascii :=
  let n := nat_of_ascii c in
  if ((97 <=? n) && (n <=? 122))%nat then ascii_of_nat (n - 32) else c.

(** [s.upper()] on ASCII text. *)
Fixpoint upper (s : string) : string :=
  match s with
  | EmptyString => EmptyString
  | String c s' => String (upper_ascii c) (upper s')
  end.

(** Rounding to the nearest integer, ties to the even one. *)
Definition round_half_even (x : Q) : Z :=
  let f := Qfloor x in
  let r := (x - inject_Z f)%Q in
  match (r ?= (1 # 2))%Q with
  | Lt => f
  | Gt => f + 1
  | Eq => if Z.even f then f else f + 1
  end.

(** [{x:.0f}]: no decimals, round-half-even, the sign of [x] kept. *)
Definition f0 (x : Q) : string :=
  let z := round_half_even x in
  if Qle_bool 0 x then str z else "-" ++ str (Z.abs z).

End Fmt.

(** ** colour-science *)

Module Colour.

Local Open Scope Q_scope.

Definition qmin (a b : Q) : Q := if Qle_bool a b then a else b.
Definition qmax (a b : Q) : Q := if Qle_bool a b then b else a.
Definition qlt (a b : Q) : bool := negb (Qle_bool b a).

(** Modelled from the spec: [colour.RGB_to_HSL] is not in the repository; this
    is the standard RGB to HSL transform that section 4.5 names, on channels
    in [0,1], with hue, saturation and lightness all returned in [0,1], in the
    order of operations the library documents (hue as a fraction of a turn,
    taken from the largest channel, wrapped once into range, and zero for a
    grey). *)
Definition RGB_to_HSL (RGB : Q * Q * Q) : Q * Q * Q :=
  let '(R, G, B) := RGB in
  let minimum := qmin (qmin R G) B in
  let maximum := qmax (qmax R G) B in
  let delta := maximum - minimum in
  let L := (maximum + minimum) / 2 in
  let S := if qlt L (1 # 2)
           then delta / (maximum + minimum)
           else delta / (2 - maximum - minimum) in
  let S := if Qeq_bool delta 0 then 0 else S in
  let delta_R := (((maximum - R) / 6) + (delta / 2)) / delta in
  let delta_G := (((maximum - G) / 6) + (delta / 2)) / delta in
  let delta_B := (((maximum - B) / 6) + (delta / 2)) / delta in
  let H := delta_B - delta_G in
  let H := if Qeq_bool maximum G then (1 # 3) + delta_R - delta_B else H in
  let H := if Qeq_bool maximum B then (2 # 3) + delta_G - delta_R else H in
  let H := if qlt H 0 then H + 1 else H in
  let H := if qlt 1 H then H - 1 else H in
  let H := if Qeq_bool delta 0 then 0 else H in
  (H, S, L).

End Colour.

(** ** scikit-learn *)

(** [KMeans.fit(X)]: an integer [random_state] seeds a generator of its own;
    [None] draws from, and advances, numpy's global one. *)
Definition KMeans_fit (L : Libs) (kmeans : KMeans) (X : list pixel) : M Fitted :=
  fun w =>
    match random_state kmeans with
    | Some seed => (fst (kmeans_fit L kmeans (RandomState_seed L seed) X), w)
    | None => let '(r, g) := kmeans_fit L kmeans (np_random w) X in
              (r, {| np_random := g; stdout := stdout w |})
    end.

(** ** image_to_palette.py *)

Definition len {A} (l : list A) : Z := Z.of_nat (List.length l).

(** Line 21 and line 24: the number of clusters asked of k-means. *)
Definition actual_num_colors (num_colors : Z) (unique_pixels : list pixel) : Z :=
  let actual_num_colors := Z.min (Z.min num_colors (len unique_pixels)) 15 in
  Z.max 3 actual_num_colors.

(** Lines 27 to 32: the estimator that is built. *)
Definition make_kmeans (actual_num_colors : Z) : KMeans :=
  {| n_clusters := actual_num_colors;
     random_state := Some 42;
     n_init := 10;
     max_iter := 300 |}.

(** Line 50: [hex_code]. *)
Definition hex_code (color_rgb : pixel) : string :=
  let '(c0, c1, c2) := color_rgb in
  Fmt.upper ("#" ++ Fmt.x02 c0 ++ Fmt.x02 c1 ++ Fmt.x02 c2).

(** Line 51: [rgb_str]. *)
Definition rgb_str (color_rgb : pixel) : string :=
  let '(c0, c1, c2) := color_rgb in
  "rgb(" ++ Fmt.str c0 ++ ", " ++ Fmt.str c1 ++ ", " ++ Fmt.str c2 ++ ")".

(** Lines 47, 54 and 55: [hsl_str], from [color_rgb / 255.0]. *)
Definition hsl_str (color_rgb : pixel) : string :=
  let '(c0, c1, c2) := color_rgb in
  let color_rgb_float := (inject_Z c0 / 255, inject_Z c1 / 255, inject_Z c2 / 255)%Q in
  let '(h, s, l) := Colour.RGB_to_HSL color_rgb_float in
  "hsl(" ++ Fmt.f0 (h * 360) ++ ", " ++ Fmt.f0 (s * 100) ++ "%, "
         ++ Fmt.f0 (l * 100) ++ "%)".

(** Lines 47 to 62: the body of the loop, for position [i] and row
    [color_rgb] of the reordered centroids. *)
Definition palette_entry (color_counts sorted_indices : list nat)
    (i : nat) (color_rgb : pixel) : result PaletteEntry :=
  match Np.item sorted_indices i with
  | Raise e => Raise e
  | Ok si =>
      match Np.item color_counts si with
      | Raise e => Raise e
      | Ok count =>
          Ok {| hex := hex_code color_rgb;
                rgb := rgb_str color_rgb;
                hsl := hsl_str color_rgb;
                frequency := Z.of_nat count |}
      end
  end.

(** Lines 45 to 62: [for i, color_rgb in enumerate(...)], appending to
    [palette]; an exception leaves the loop and drops what was appended. *)
Fixpoint format_loop (color_counts sorted_indices : list nat)
    (i : nat) (rows : list pixel) (palette : Palette) : result Palette :=
  match rows with
  | [] => Ok palette
  | color_rgb :: rest =>
      match palette_entry color_counts sorted_indices i color_rgb with
      | Raise e => Raise e
      | Ok entry =>
          format_loop color_counts sorted_indices (S i) rest (palette ++ [entry])%list
      end
  end.

(** Lines 37 and 38: [color_counts]. *)
Definition color_counts (fitted : Fitted) : list nat :=
  Np.bincount (labels_ fitted).

(** Line 41: [sorted_indices]. *)
Definition sorted_indices (L : Libs) (fitted : Fitted) : list nat :=
  rev (argsort L (color_counts fitted)).

(** Lines 12 to 64: the body of the [try]. *)
Definition extract_palette_try (L : Libs) (image_file : string) (num_colors : Z)
    : M Palette :=
  img <- lift (Image_open L image_file) ;;
  let img := thumbnail L img (200%nat, 200%nat) in
  let pixels := data img in
  let unique_pixels := Np.unique pixels in
  let actual_num_colors := actual_num_colors num_colors unique_pixels in
  let kmeans := make_kmeans actual_num_colors in
  fitted <- KMeans_fit L kmeans pixels ;;
  let dominant_colors_rgb_int := map Np.astype_int_row (cluster_centers_ fitted) in
  dominant_colors_rgb_int <-
    lift (Np.take dominant_colors_rgb_int (sorted_indices L fitted)) ;;
  lift (format_loop (color_counts fitted) (sorted_indices L fitted) 0
          dominant_colors_rgb_int []).

(** Lines 11 and 66 to 68: the [try] with its handler.  [None] is Python's
    [None]. *)
Definition extract_palette (L : Libs) (image_file : string) (num_colors : Z)
    : World -> option Palette * World :=
  fun w =>
    match extract_palette_try L image_file num_colors w with
    | (Ok palette, w') => (Some palette, w')
    | (Raise e, w') =>
        (None, snd (print ("An error occurred during color extraction: "
                           ++ exn_message e) w'))
    end.

(** ** Views of one run, for stating its properties *)

(** The samples of the resized image: [pixels] of line 15. *)
Definition pixels_of (L : Libs) (img : Image) : list pixel :=
  data (thumbnail L img (200%nat, 200%nat)).

(** What [kmeans.fit(pixels)] of line 33 leaves in [kmeans], or the
    exception it raises. *)
Definition fit_of (L : Libs) (num_colors : Z) (pixels : list pixel) : result Fitted :=
  fst (kmeans_fit L (make_kmeans (actual_num_colors num_colors (Np.unique pixels)))
         (RandomState_seed L 42) pixels).

(** The record appended for a centroid and its population. *)
Definition entry_of (centre : centroid) (count : nat) : PaletteEntry :=
  let color_rgb := Np.astype_int_row centre in
  {| hex := hex_code color_rgb;
     rgb := rgb_str color_rgb;
     hsl := hsl_str color_rgb;
     frequency := Z.of_nat count |}.

(** [e] is the record of cluster number [c] of a fit. *)
Definition cluster_entry (fitted : Fitted) (c : nat) (e : PaletteEntry) : Prop :=
  exists centre count,
    nth_error (cluster_centers_ fitted) c = Some centre /\
    nth_error (color_counts fitted) c = Some count /\
    e = entry_of centre count.

Definition total_frequency (palette : Palette) : Z :=
  fold_right Z.add 0 (map frequency palette).

(** The two properties of [np.argsort] at the one array it is called on. *)
Definition argsort_call_ok (L : Libs) (fitted : Fitted) : bool :=
  Np.argsort_ok (color_counts fitted) (argsort L (color_counts fitted)).

Definition argsort_call_stable (L : Libs) (fitted : Fitted) : bool :=
  Np.argsort_stable (color_counts fitted) (argsort L (color_counts fitted)).

(** The libraries with another clustering routine. *)
Definition with_fit (L : Libs)
    (fit : KMeans -> RandomState -> list pixel -> result Fitted * RandomState) : Libs :=
  {| Image_open := Image_open L;
     thumbnail := thumbnail L;
     RandomState_seed := RandomState_seed L;
     kmeans_fit := fit;
     argsort := argsort L |}.

(** ** Orders *)

(** The order an insertion sort of the indices produces: by key, and by
    position among equal keys. *)
Definition key_index_lt (v : list nat) (i j : nat) : Prop :=
  (Np.key v i < Np.key v j \/ (Np.key v i = Np.key v j /\ i < j))%nat.


(** The order of [np.unique]: by red, then green, then blue. *)
Definition pixel_lt (p q : pixel) : Prop := Np.pixel_compare p q = Lt.

(** ** Conversion of a centroid channel *)

(** Dropping the fraction: down for a positive number, up for a negative. *)
Definition toward_zero (x : Q) : Z :=
  if Qle_bool 0 x then Qfloor x else Qceiling x.

(** The conversion the specification words: the nearest integer, then the
    range [0,255]. *)
Definition spec_round_clamp (x : Q) : Z :=
  Z.max 0 (Z.min 255 (Fmt.round_half_even x)).

(** Entry [e] carries the three strings of cluster [c]'s centroid after
    each channel went through [conv]. *)
Definition derived_with (conv : Q -> Z) (fitted : Fitted) (c : nat)
    (e : PaletteEntry) : Prop :=
  exists r g b,
    nth_error (cluster_centers_ fitted) c = Some (r, g, b) /\
    hex e = hex_code (conv r, conv g, conv b) /\
    rgb e = rgb_str (conv r, conv g, conv b) /\
    hsl e = hsl_str (conv r, conv g, conv b).

Definition error_line (e : exn) : string :=
  "An error occurred during color extraction: " ++ exn_message e.

(** ** Reading the three strings back *)

Module Valid.


















End Valid.


(** ** The properties as the specification words them *)


(** The conversion as worded: channels rounded to the nearest integer and clamped. *)
Definition claimed_conversion (L : Libs) (f : string) (n : Z) (w : World) : Prop :=
  forall p img fitted,
    fst (extract_palette L f n w) = Some p ->
    Image_open L f = Ok img ->
    fit_of L n (pixels_of L img) = Ok fitted ->
    Forall2 (derived_with spec_round_clamp fitted) (sorted_indices L fitted) p.




(** ** An executable instance of the libraries

    A decoder for binary PPM (one of the formats PIL reads), a thumbnail that
    leaves an image that already fits untouched and samples a larger one on a
    grid, and Lloyd's k-means with a
    farthest-first start, and an insertion sort of indices.  It stands in for
    PIL, scikit-learn and [np.argsort] when the
    pipeline is run on a concrete image; no theorem of the pipeline depends
    on it. *)

Module RefLibs.

Definition ppm_digit (c : ascii) : bool :=
  let n := nat_of_ascii c in ((48 <=? n) && (n <=? 57))%nat.

Definition ppm_space (c : ascii) : bool :=
  let n := nat_of_ascii c in
  ((n =? 32) || (n =? 10) || (n =? 13) || (n =? 9))%nat.

Fixpoint ppm_skip (s : string) : string :=
  match s with
  | String c t => if ppm_space c then ppm_skip t else s
  | EmptyString => s
  end.

Fixpoint ppm_number (s : string) (acc : nat) (seen : bool) : option (nat * string) :=
  match s with
  | String c t =>
      if ppm_digit c then ppm_number t (10 * acc + (nat_of_ascii c - 48))%nat true
      else if seen then Some (acc, s) else None
  | EmptyString => if seen then Some (acc, s) else None
  end.

Fixpoint ppm_rows (n : nat) (s : string) : option (list pixel) :=
  match n with
  | O => Some []
  | S n' =>
      match s with
      | String r (String g (String b t)) =>
          match ppm_rows n' t with
          | Some rows =>
              Some ((Z.of_nat (nat_of_ascii r), Z.of_nat (nat_of_ascii g),
                     Z.of_nat (nat_of_ascii b)) :: rows)
          | None => None
          end
      | _ => None
      end
  end.

Definition unidentified : exn :=
  Exception "UnidentifiedImageError" "cannot identify image file".

Definition open_ppm (s : string) : result Image :=
  match s with
  | String "P" (String "6" t) =>
      match ppm_number (ppm_skip t) 0 false with
      | Some (w, t1) =>
          match ppm_number (ppm_skip t1) 0 false with
          | Some (h, t2) =>
              match ppm_number (ppm_skip t2) 0 false with
              | Some (255%nat, String c t3) =>
                  if ppm_space c && negb (w * h =? 0)%nat then
                    match ppm_rows (w * h) t3 with
                    | Some rows => Ok {| width := w; height := h; data := rows |}
                    | None => Raise (Exception "OSError" "image file is truncated")
                    end
                  else Raise unidentified
              | _ => Raise unidentified
              end
          | None => Raise unidentified
          end
      | None => Raise unidentified
      end
  | _ => Raise unidentified
  end.

Fixpoint bytes_of_rows (rows : list pixel) : string :=
  match rows with
  | [] => EmptyString
  | (r, g, b) :: t =>
      String (ascii_of_nat (Z.to_nat r))
        (String (ascii_of_nat (Z.to_nat g))
           (String (ascii_of_nat (Z.to_nat b)) (bytes_of_rows t)))
  end.

(** The PPM file of a [w] by [h] image with the given rows. *)
Definition ppm (w h : nat) (rows : list pixel) : string :=
  "P6" ++ String (ascii_of_nat 10) (Fmt.str (Z.of_nat w)) ++ " " ++ Fmt.str (Z.of_nat h)
       ++ String (ascii_of_nat 10) "255" ++ String (ascii_of_nat 10) (bytes_of_rows rows).

Definition shrink (img : Image) (size : nat * nat) : Image :=
  let '(x, y) := size in
  let w := width img in
  let h := height img in
  if ((w <=? x) && (h <=? y))%nat then img
  else
    let m := Nat.max w h in
    let w' := Nat.max 1 (w * x / m) in
    let h' := Nat.max 1 (h * y / m) in
    {| width := w'; height := h';
       data := flat_map (fun j =>
                 map (fun i => nth ((j * h / h') * w + i * w / w') (data img) (0, 0, 0))
                     (seq 0 w'))
               (seq 0 h') |}.

Local Open Scope Q_scope.

Definition point (p : pixel) : centroid :=
  let '(r, g, b) := p in (inject_Z r, inject_Z g, inject_Z b).

Definition dist2 (c : centroid) (p : pixel) : Q :=
  let '(cr, cg, cb) := c in
  let '(pr, pg, pb) := point p in
  Qred ((cr - pr) * (cr - pr) + (cg - pg) * (cg - pg) + (cb - pb) * (cb - pb)).

(** Index and distance of the closest of [centers], the first one on a tie. *)
Fixpoint nearest_from (centers : list centroid) (p : pixel) (j : nat)
    (best : nat * Q) : nat * Q :=
  match centers with
  | [] => best
  | c :: rest =>
      let d := dist2 c p in
      nearest_from rest p (S j) (if Colour.qlt d (snd best) then (j, d) else best)
  end.

Definition nearest (centers : list centroid) (p : pixel) : nat * Q :=
  match centers with
  | [] => (O, 0)
  | c :: rest => nearest_from rest p 1%nat (O, dist2 c p)
  end.

Definition assign (centers : list centroid) (X : list pixel) : list nat :=
  map (fun p => fst (nearest centers p)) X.

Definition inertia (centers : list centroid) (X : list pixel) : Q :=
  fold_left (fun acc p => Qred (acc + snd (nearest centers p))) X 0.

Definition mean (members : list pixel) (old : centroid) : centroid :=
  match members with
  | [] => old
  | _ =>
      let n := inject_Z (Z.of_nat (List.length members)) in
      let sum := fold_left (fun acc p =>
                   let '(ar, ag, ab) := acc in
                   let '(pr, pg, pb) := point p in
                   (ar + pr, ag + pg, ab + pb)) members (0, 0, 0) in
      let '(sr, sg, sb) := sum in
      (Qred (sr / n), Qred (sg / n), Qred (sb / n))
  end.

Fixpoint members_of (j : nat) (labels : list nat) (X : list pixel) : list pixel :=
  match labels, X with
  | l :: ls, p :: ps => if (l =? j)%nat then p :: members_of j ls ps else members_of j ls ps
  | _, _ => []
  end.

Definition update (centers : list centroid) (labels : list nat) (X : list pixel)
    : list centroid :=
  map (fun jc => mean (members_of (fst jc) labels X) (snd jc))
      (combine (seq 0 (List.length centers)) centers).

Definition same_centroid (a b : centroid) : bool :=
  let '(ar, ag, ab) := a in
  let '(br, bg, bb) := b in
  Qeq_bool ar br && Qeq_bool ag bg && Qeq_bool ab bb.

Fixpoint same_centers (a b : list centroid) : bool :=
  match a, b with
  | [], [] => true
  | x :: a', y :: b' => same_centroid x y && same_centers a' b'
  | _, _ => false
  end.

Fixpoint lloyd (fuel : nat) (centers : list centroid) (X : list pixel) : list centroid :=
  match fuel with
  | O => centers
  | S fuel' =>
      let centers' := update centers (assign centers X) X in
      if same_centers centers centers' then centers else lloyd fuel' centers' X
  end.

(** The sample farthest from the centres chosen so far, the first on a tie. *)
Definition farthest (chosen : list centroid) (X : list pixel) : pixel :=
  fst (fold_left (fun best p =>
         let d := snd (nearest chosen p) in
         if Colour.qlt (snd best) d then (p, d) else best)
       X (hd (0%Z, 0%Z, 0%Z) X, snd (nearest chosen (hd (0%Z, 0%Z, 0%Z) X)))).

Fixpoint seed_centers (k : nat) (chosen : list centroid) (X : list pixel) : list centroid :=
  match k with
  | O => chosen
  | S k' => seed_centers k' (chosen ++ [point (farthest chosen X)]) X
  end.

Definition one_run (k : nat) (iters : nat) (start : nat) (X : list pixel) : list centroid :=
  let first := point (nth (start mod List.length X) X (0%Z, 0%Z, 0%Z)) in
  lloyd iters (seed_centers (k - 1) [first] X) X.

Fixpoint best_of (runs : nat) (k iters start : nat) (X : list pixel)
    (best : option (list centroid)) : option (list centroid) :=
  match runs with
  | O => best
  | S runs' =>
      let c := one_run k iters start X in
      let best' := match best with
                   | None => Some c
                   | Some b => if Colour.qlt (inertia c X) (inertia b X) then Some c else best
                   end in
      best_of runs' k iters (S start) X best'
  end.

Definition fit (km : KMeans) (g : RandomState) (X : list pixel)
    : result Fitted * RandomState :=
  let k := Z.to_nat (n_clusters km) in
  if (List.length X <? k)%nat then
    (Raise (Exception "ValueError" "n_samples should be >= n_clusters"), g)
  else
    match best_of (Z.to_nat (n_init km)) k (Z.to_nat (max_iter km)) (N.to_nat g) X None with
    | None => (Raise (Exception "ValueError" "n_init should be > 0"), g)
    | Some centers =>
        (Ok {| cluster_centers_ := centers; labels_ := assign centers X |},
         (g + Z.to_N (n_init km))%N)
    end.

(** The insertion step of numpy's index sort: [i] goes in front of the
    first index whose key is strictly greater. *)
Fixpoint insert_index (v : list nat) (i : nat) (acc : list nat) : list nat :=
  match acc with
  | [] => [i]
  | j :: t => if (nth i v O <? nth j v O)%nat
              then i :: j :: t
              else j :: insert_index v i t
  end.

(** The index sort numpy's scalar code runs on an array of at most 16
    elements: insertion sort, the indices taken from left to right. *)
Definition insertion_argsort (v : list nat) : list nat :=
  fold_left (fun acc i => insert_index v i acc) (seq 0 (List.length v)) [].

Definition libs : Libs :=
  {| Image_open := open_ppm;
     thumbnail := shrink;
     RandomState_seed := Z.to_N;
     kmeans_fit := fit;
     argsort := insertion_argsort |}.

Definition w0 : World := {| np_random := 0%N; stdout := [] |}.

End RefLibs.

(** ** Two small images and what the pipeline makes of them *)

Module Samples.

(** Five samples in a row, four colours, two of them one step apart. *)
Definition rows_a : list pixel :=
  [(0, 0, 0); (1, 1, 1); (1, 1, 1); (100, 100, 100); (200, 200, 200)].

Definition file_a : string := RefLibs.ppm 5 1 rows_a.

Definition image_a : Image := {| width := 5; height := 1; data := rows_a |}.

Definition fitted_a : Fitted :=
  {| cluster_centers_ := [(2 # 3, 2 # 3, 2 # 3); (200, 200, 200); (100, 100, 100)]%Q;
     labels_ := [0; 0; 0; 2; 1]%nat |}.

Definition palette_a : Palette :=
  [ {| hex := "#000000"; rgb := "rgb(0, 0, 0)"; hsl := "hsl(0, 0%, 0%)";
       frequency := 3 |};
    {| hex := "#646464"; rgb := "rgb(100, 100, 100)"; hsl := "hsl(0, 0%, 39%)";
       frequency := 1 |};
    {| hex := "#C8C8C8"; rgb := "rgb(200, 200, 200)"; hsl := "hsl(0, 0%, 78%)";
       frequency := 1 |} ].

(** A clustering routine that knows this one answer. *)
Definition table_fit_a (km : KMeans) (g : RandomState) (X : list pixel)
    : result Fitted * RandomState :=
  (Ok fitted_a, g).

(** A two by two image of three saturated colours. *)
Definition rows_b : list pixel :=
  [(255, 0, 1); (255, 0, 1); (0, 0, 255); (0, 255, 0)].

Definition file_b : string := RefLibs.ppm 2 2 rows_b.

Definition image_b : Image := {| width := 2; height := 2; data := rows_b |}.

Definition fitted_b : Fitted :=
  {| cluster_centers_ := [(0, 0, 255); (0, 255, 0); (255, 0, 1)]%Q;
     labels_ := [2; 2; 0; 1]%nat |}.

Definition palette_b : Palette :=
  [ {| hex := "#FF0001"; rgb := "rgb(255, 0, 1)"; hsl := "hsl(360, 100%, 50%)";
       frequency := 2 |};
    {| hex := "#00FF00"; rgb := "rgb(0, 255, 0)"; hsl := "hsl(120, 100%, 50%)";
       frequency := 1 |};
    {| hex := "#0000FF"; rgb := "rgb(0, 0, 255)"; hsl := "hsl(240, 100%, 50%)";
       frequency := 1 |} ].

End Samples.

(** ** Further views of a run *)

(** scikit-learn's check of the input of [fit]: fewer samples than clusters
    is a ValueError. *)
Definition fit_rejects_few_samples (L : Libs) : Prop :=
  forall km g X, len X < n_clusters km ->
    exists e, fst (kmeans_fit L km g X) = Raise e.

(** The bounds of lines 21 and 24 applied to the request alone. *)
Definition clamp_request (num_colors : Z) : Z := Z.max 3 (Z.min num_colors 15).

Module MoreSamples.

(** One pixel. *)
Definition file_dot : string := RefLibs.ppm 1 1 [(12, 34, 56)].

Definition image_dot : Image := {| width := 1; height := 1; data := [(12, 34, 56)] |}.

(** Four pixels of one colour. *)
Definition file_flat : string :=
  RefLibs.ppm 2 2 [(12, 34, 56); (12, 34, 56); (12, 34, 56); (12, 34, 56)].

Definition image_flat : Image :=
  {| width := 2; height := 2;
     data := [(12, 34, 56); (12, 34, 56); (12, 34, 56); (12, 34, 56)] |}.

Definition fitted_flat : Fitted :=
  {| cluster_centers_ := [(12, 34, 56); (12, 34, 56); (12, 34, 56)]%Q;
     labels_ := [0; 0; 0; 0]%nat |}.

Definition palette_flat : Palette :=
  [ {| hex := "#0C2238"; rgb := "rgb(12, 34, 56)"; hsl := "hsl(210, 65%, 13%)";
       frequency := 4 |} ].

End MoreSamples.

(** ** app.py: the HTTP layer

    The two POST routes of [src/backend/app.py] and the two start-up blocks
    that bind the globals they read.  A view function is a function of the
    globals and of what Flask hands it; a response is its JSON value and its
    status.  The Gemini client, [json.loads], [json.dumps], [str.strip] and
    the text an f-string gives a value that is not a [str] are the fields of
    [WebLibs]. *)

Module Web.

(** A value that [json.loads] returns and [jsonify] accepts. *)
#[warnings="-register-all"]
Inductive json : Type :=
| JNull
| JBool (b : bool)
| JInt (z : Z)
| JFloat (q : Q)
| JStr (s : string)
| JArr (items : list json)
| JObj (members : list (string * json)).

Record Response : Type := { body : json; status : Z }.

(** [jsonify(v)] and [jsonify(v), code]. *)
Definition jsonify (v : json) : Response := {| body := v; status := 200 |}.
Definition jsonify_with (v : json) (code : Z) : Response := {| body := v; status := code |}.

(** [{"error": message}]. *)
Definition error_body (message : string) : json := JObj [("error", JStr message)].

(** [d.get(key)] on a dict or a MultiDict: the first value of the key. *)
Fixpoint lookup {A} (key : string) (d : list (string * A)) : option A :=
  match d with
  | [] => None
  | (k, v) :: rest => if String.eqb key k then Some v else lookup key rest
  end.

(** [not v] reversed: Python's truth value of a decoded value. *)
Definition truthy (v : json) : bool :=
  match v with
  | JNull => false
  | JBool b => b
  | JInt z => negb (z =? 0)
  | JFloat q => negb (Qeq_bool q 0)
  | JStr s => negb (String.eqb s EmptyString)
  | JArr items => match items with [] => false | _ => true end
  | JObj members => match members with [] => false | _ => true end
  end.

(** An uploaded part: [werkzeug.FileStorage]. *)
Record FileStorage : Type := { filename : string; stream : string }.

(** What the image route reads of [flask.request]. *)
Record Request : Type := {
  files : list (string * FileStorage);
  form : list (string * string)
}.

Record GenerativeModel : Type := { model_name : string }.

Record WebLibs : Type := {
  (* genai.configure(api_key=key) *)
  genai_configure : string -> result unit;
  (* genai.GenerativeModel(name) *)
  genai_GenerativeModel : string -> result GenerativeModel;
  (* model.generate_content(prompt).text *)
  generate_content : GenerativeModel -> string -> result string;
  (* json.loads(s) *)
  json_loads : string -> result json;
  (* json.dumps(v, indent=2) *)
  json_dumps : json -> string;
  (* s.strip() *)
  str_strip : string -> string;
  (* what an f-string writes for a decoded value that is not a str *)
  format_value : json -> string
}.

(** The global [extract_palette] of app.py: a function of the upload and of
    [num_colors], or [None]. *)
Definition extractor : Type := string -> Z -> World -> result (option Palette) * World.

Definition nl : string := String (ascii_of_nat 10) EmptyString.
Definition dq : string := String (ascii_of_nat 34) EmptyString.

Fixpoint string_of_codes (codes : list nat) : string :=
  match codes with
  | [] => EmptyString
  | c :: rest => String (ascii_of_nat c) (string_of_codes rest)
  end.

(** The two marks the start-up messages begin with, byte for byte. *)
Definition warning_mark : string :=
  string_of_codes [226; 128; 154; 195; 182; 226; 128; 160; 195; 148; 226; 136; 143; 195; 168]%nat.
Definition check_mark : string :=
  string_of_codes [226; 128; 154; 195; 186; 195; 150]%nat.

Definition prints (lines : list string) : M unit :=
  fun w => (Ok tt, {| np_random := np_random w; stdout := (stdout w ++ lines)%list |}).

(** [from image_to_palette import extract_palette], when it succeeds. *)
Definition image_to_palette_extract_palette (L : Libs) : extractor :=
  fun image_file num_colors w =>
    let '(palette, w') := extract_palette L image_file num_colors w in
    (Ok palette, w').

Definition is_ImportError (e : exn) : bool :=
  String.eqb (exn_class e) "ImportError" || String.eqb (exn_class e) "ModuleNotFoundError".

(** Lines 14 to 21: the two imports of the helper modules, each given as
    what importing it does.  An ImportError from either leaves
    [extract_palette = None]; any other exception ends the start-up. *)
Definition load_helpers (L : Libs) (import_image_to_palette import_advanced_ai_palette : result unit)
    : M (option extractor) :=
  let on_import_error (e : exn) : M (option extractor) :=
    if is_ImportError e then
      (_ <- print (warning_mark ++ "  Warning: 'image_to_palette' or 'advanced_ai_palette' not found. Image routes will not work.") ;;
       ret None)
    else lift (Raise e) in
  match import_image_to_palette with
  | Raise e => on_import_error e
  | Ok _ =>
      match import_advanced_ai_palette with
      | Raise e => on_import_error e
      | Ok _ => ret (Some (image_to_palette_extract_palette L))
      end
  end.

(** Lines 30 to 40: the global [gemini_model], from the environment left by
    [load_dotenv()]. *)
Definition load_gemini_model (W : WebLibs) (getenv : string -> option string)
    : M (option GenerativeModel) :=
  let on_exception (e : exn) : M (option GenerativeModel) :=
    (_ <- print (warning_mark ++ "  Could not initialize Gemini model: " ++ exn_message e) ;;
     ret None) in
  let api_key := getenv "GEMINI_API_KEY" in
  match api_key with
  | None | Some EmptyString =>
      _ <- print (warning_mark ++ "  GEMINI_API_KEY not found in .env file. Text generation API will be disabled.") ;;
      ret None
  | Some api_key =>
      match genai_configure W api_key with
      | Raise e => on_exception e
      | Ok _ =>
          match genai_GenerativeModel W "gemini-1.5-flash" with
          | Raise e => on_exception e
          | Ok model =>
              _ <- print (check_mark ++ " Gemini model initialized successfully.") ;;
              ret (Some model)
          end
      end
  end.

(** One palette entry as the dict line 57 of image_to_palette.py builds. *)
Definition entry_json (e : PaletteEntry) : json :=
  JObj [("hex", JStr (hex e)); ("rgb", JStr (rgb e)); ("hsl", JStr (hsl e));
        ("frequency", JInt (frequency e))].

(** Lines 136 to 141: [response_data]. *)
Definition response_data (basic_palette : Palette) : json :=
  JObj [("palette", JArr (map entry_json basic_palette));
        ("message", JStr "Basic color palette extracted successfully");
        ("optimization", JStr "basic");
        ("colors_found", JInt (len basic_palette))].

(** Lines 110 to 153: the view of POST /api/extract. *)
Definition extract_palette_api (extract_palette : option extractor) (request : Request)
    : World -> Response * World :=
  fun w =>
    match lookup "file" (files request) with
    | None => (jsonify_with (error_body "No file part in the request") 400, w)
    | Some file =>
        let optimize_level := match lookup "optimize" (form request) with
                              | Some v => v
                              | None => "basic"
                              end in
        let w := snd (prints [nl ++ "--- [REQUEST RECEIVED] /api/extract ---";
                              "Filename: " ++ filename file ++ ", Optimize Level: "
                                ++ optimize_level;
                              "---------------------------------------"] w) in
        if String.eqb (filename file) EmptyString then
          (jsonify_with (error_body "No file selected") 400, w)
        else
          match extract_palette with
          | None =>
              (jsonify_with (error_body "Image processing module not available on server") 500,
               w)
          | Some extract_palette =>
              match extract_palette (stream file) 10 w with
              | (Raise e, w) =>
                  (jsonify_with
                     (error_body "Internal server error while processing the image.") 500,
                   snd (print ("Error processing image: " ++ exn_message e) w))
              | (Ok None, w) | (Ok (Some []), w) =>
                  (jsonify_with (error_body "Could not process the image") 500, w)
              | (Ok (Some basic_palette), w) =>
                  (jsonify (response_data basic_palette),
                   snd (prints ["--- [RESPONSE SENT] /api/extract ---";
                                "Successfully extracted " ++ Fmt.str (len basic_palette)
                                  ++ " colors.";
                                "------------------------------------"] w))
              end
          end
    end.

(** The two answers of lines 132 to 149, by what [extract_palette] returned:
    [response_data] for a palette with an entry, the 500 of line 133 for
    [None] and for an empty palette. *)
Definition answer_for (palette : option Palette) : Response :=
  match palette with
  | Some (e :: rest) => jsonify (response_data (e :: rest))
  | _ => jsonify_with (error_body "Could not process the image") 500
  end.

(** Lines 74 to 83: [system_prompt], the f-string around the user's text. *)
Definition system_prompt (user_prompt : string) : string :=
  nl ++
  "    You are an expert color palette generator. Based on the user's prompt, create a harmonious and aesthetically pleasing color palette of 6 colors." ++ nl ++
  "    The user's prompt is: " ++ dq ++ user_prompt ++ dq ++ nl ++
  nl ++
  "    Your response MUST be a single, valid JSON object. Do not include any text, explanations, or markdown formatting before or after the JSON object." ++ nl ++
  "    The JSON object must have a single key " ++ dq ++ "palette" ++ dq ++ ", which is an array of objects." ++ nl ++
  "    Each object in the array must contain:" ++ nl ++
  "    1. A " ++ dq ++ "hex" ++ dq ++ " key with the color as a string (e.g., " ++ dq ++ "#RRGGBB" ++ dq ++ ")." ++ nl ++
  "    2. A " ++ dq ++ "name" ++ dq ++ " key with a creative name for the color as a string." ++ nl ++
  "    ".

Definition open_brace : ascii := ascii_of_nat 123.
Definition close_brace : ascii := ascii_of_nat 125.

(** Whether the character [c] occurs in [s]. *)
Fixpoint occurs (c : ascii) (s : string) : bool :=
  match s with
  | EmptyString => false
  | String x t => Ascii.eqb x c || occurs c t
  end.

(** The rest of [s] from its first opening brace on. *)
Fixpoint from_first_open (s : string) : option string :=
  match s with
  | EmptyString => None
  | String c t => if Ascii.eqb c open_brace then Some s else from_first_open t
  end.

(** The prefix of [s] up to its last closing brace. *)
Fixpoint upto_last_close (s : string) : option string :=
  match s with
  | EmptyString => None
  | String c t =>
      match upto_last_close t with
      | Some r => Some (String c r)
      | None => if Ascii.eqb c close_brace then Some (String c EmptyString) else None
      end
  end.

(** Line 90: [re.search(r'\{.*\}', s, re.DOTALL)] and [.group()] of the
    match: the leftmost opening brace that has a closing brace after it, and,
    the star being greedy and the dot matching every character, everything up
    to the last closing brace. *)
Definition re_search_braces (s : string) : option string :=
  match from_first_open s with
  | Some (String c t) =>
      match upto_last_close t with
      | Some r => Some (String c r)
      | None => None
      end
  | _ => None
  end.

(** The text of [{v}] in an f-string. *)
Definition fstr (W : WebLibs) (v : json) : string :=
  match v with
  | JStr s => s
  | _ => format_value W v
  end.

(** Lines 58 to 107: the view of POST /api/generate-from-text, on what
    [request.get_json()] returned. *)
Definition generate_from_text_api (W : WebLibs) (gemini_model : option GenerativeModel)
    (data : json) : World -> result Response * World :=
  fun w =>
    match data with
    | JObj members =>
        let user_prompt := match lookup "prompt" members with
                           | Some v => v
                           | None => JStr EmptyString
                           end in
        let w := snd (prints [nl ++ "--- [REQUEST RECEIVED] /api/generate-from-text ---";
                              "Prompt: " ++ fstr W user_prompt] w) in
        match gemini_model with
        | None =>
            (Ok (jsonify_with
                   (error_body "Text generation model is not available. Check API key.") 503),
             w)
        | Some gemini_model =>
            if negb (truthy user_prompt) then
              (Ok (jsonify_with
                     (error_body "No 'prompt' key found in the request body") 400), w)
            else
              let on_exception (e : exn) (w : World) :=
                (Ok (jsonify_with
                       (error_body "Internal server error during AI generation.") 500),
                 snd (print ("Error during Gemini API call: " ++ exn_message e) w)) in
              match generate_content W gemini_model (system_prompt (fstr W user_prompt)) with
              | Raise e => on_exception e w
              | Ok text =>
                  let text_response := str_strip W text in
                  match re_search_braces text_response with
                  | None =>
                      (Ok (jsonify_with
                             (error_body "AI model returned an invalid format") 500),
                       snd (print ("Error: Gemini returned a non-JSON response: "
                                   ++ text_response) w))
                  | Some json_match =>
                      match json_loads W json_match with
                      | Raise e => on_exception e w
                      | Ok palette_data =>
                          (Ok (jsonify palette_data),
                           snd (prints ["--- [RESPONSE SENT] /api/generate-from-text ---";
                                        json_dumps W palette_data;
                                        "---------------------------------------------"] w))
                      end
                  end
              end
        end
    | _ =>
        (Raise (Exception "AttributeError" "object has no attribute 'get'"), w)
    end.

End Web.

(** ** An executable instance of the web libraries

    A Gemini client that answers every prompt with one fenced, empty JSON
    object, a [json.loads] that knows the empty object and refuses everything
    else, and a [strip] of ASCII white space.  It is used to run the views on
    concrete requests. *)

Module RefWeb.

Import Web.

Definition ascii_space (c : ascii) : bool :=
  let n := nat_of_ascii c in
  (((9 <=? n) && (n <=? 13)) || ((28 <=? n) && (n <=? 32)))%nat.

Fixpoint lstrip (s : string) : string :=
  match s with
  | String c t => if ascii_space c then lstrip t else s
  | EmptyString => s
  end.

Fixpoint rstrip (s : string) : string :=
  match s with
  | EmptyString => EmptyString
  | String c t =>
      match rstrip t with
      | EmptyString => if ascii_space c then EmptyString else String c EmptyString
      | r => String c r
      end
  end.

Definition fence : string := "```".

Definition fenced_reply : string :=
  fence ++ "json" ++ nl ++ "{}" ++ nl ++ fence ++ nl.

Definition loads (s : string) : result json :=
  if String.eqb s "{}" then Ok (JObj [])
  else Raise (Exception "JSONDecodeError" "Expecting property name enclosed in double quotes").

Definition show (v : json) : string :=
  match v with
  | JNull => "None"
  | JBool true => "True"
  | JBool false => "False"
  | JInt z => Fmt.str z
  | JStr s => s
  | _ => "{}"
  end.

Definition libs : WebLibs :=
  {| genai_configure := fun _ => Ok tt;
     genai_GenerativeModel := fun name => Ok {| model_name := name |};
     generate_content := fun _ _ => Ok fenced_reply;
     json_loads := loads;
     json_dumps := fun _ => "{}";
     str_strip := fun s => rstrip (lstrip s);
     format_value := show |}.

Definition flash : GenerativeModel := {| model_name := "gemini-1.5-flash" |}.

(** An upload of the five-pixel sample, with an [optimize] field. *)
Definition upload_a : Request :=
  {| files := [("file", {| filename := "a.ppm"; stream := Samples.file_a |})];
     form := [("optimize", "advanced")] |}.



(** An upload that is not an image. *)
Definition upload_text : Request :=
  {| files := [("file", {| filename := "notes.txt"; stream := "not an image" |})];
     form := [] |}.

Definition sunset : json := JObj [("prompt", JStr "sunset over the sea")].

End RefWeb.

(** * Proofs *)

(** ** Facts about the numpy operations *)

Module NpFacts.

Import Np.

Lemma list_sum_map_add (f g : nat -> nat) (s : list nat) :
  list_sum (map (fun n => f n + g n)%nat s) = (list_sum (map f s) + list_sum (map g s))%nat.
Proof.
  induction s as [|a s IH]; simpl; [reflexivity | rewrite IH; lia].
Qed.

Lemma list_sum_cons (x : nat) (l : list nat) :
  list_sum (x :: l) = (x + list_sum l)%nat.
Proof. reflexivity. Qed.

Lemma indicator_sum (x a m : nat) :
  list_sum (map (fun n => if Nat.eq_dec x n then 1 else 0)%nat (seq a m))
  = (if ((a <=? x) && (x <? a + m))%nat then 1 else 0)%nat.
Proof.
  revert a; induction m as [|m IH]; intro a.
  - change (seq a 0) with (@nil nat). change (list_sum (map _ [])) with O.
    destruct (a <=? x)%nat eqn:E1; cbn [andb]; [|reflexivity].
    destruct (x <? a + 0)%nat eqn:E2; [|reflexivity].
    apply Nat.leb_le in E1. apply Nat.ltb_lt in E2. lia.
  - change (seq a (S m)) with (a :: seq (S a) m).
    rewrite map_cons, list_sum_cons, IH.
    destruct (Nat.eq_dec x a) as [->|Hne].
    + replace (S a <=? a)%nat with false by (symmetry; apply Nat.leb_gt; lia).
      replace (a <=? a)%nat with true by (symmetry; apply Nat.leb_le; lia).
      replace (a <? a + S m)%nat with true by (symmetry; apply Nat.ltb_lt; lia).
      reflexivity.
    + replace (a + S m)%nat with (S a + m)%nat by lia.
      replace (S a <=? x)%nat with (a <=? x)%nat; [reflexivity|].
      destruct (a <=? x)%nat eqn:E1; symmetry.
      * apply Nat.leb_le in E1. apply Nat.leb_le. lia.
      * apply Nat.leb_gt in E1. apply Nat.leb_gt. lia.
Qed.

Lemma count_occ_sum_seq (l : list nat) (m : nat) :
  Forall (fun x => x < m)%nat l ->
  list_sum (map (count_occ Nat.eq_dec l) (seq 0 m)) = List.length l.
Proof.
  induction l as [|x l IH]; intro H.
  - simpl. induction (seq 0 m); simpl; auto.
  - inversion H as [|? ? Hx Hl]; subst.
    rewrite (map_ext _ (fun n => (if Nat.eq_dec x n then 1 else 0)
                                 + count_occ Nat.eq_dec l n)%nat).
    + rewrite list_sum_map_add, indicator_sum, (IH Hl).
      replace (x <? 0 + m)%nat with true by (symmetry; apply Nat.ltb_lt; lia).
      reflexivity.
    + intro n. simpl. destruct (Nat.eq_dec x n); reflexivity.
Qed.

Lemma bincount_length (labels : list nat) :
  List.length (bincount labels)
  = match labels with [] => O | _ => S (list_max labels) end.
Proof.
  unfold bincount. rewrite length_map, length_seq. reflexivity.
Qed.

Lemma bincount_sum (labels : list nat) :
  list_sum (bincount labels) = List.length labels.
Proof.
  unfold bincount. destruct labels as [|x l]; [reflexivity|].
  apply count_occ_sum_seq.
  assert (H : Forall (fun k => k <= list_max (x :: l))%nat (x :: l))
    by (apply list_max_le; lia).
  eapply Forall_impl; [|exact H]. simpl. intros; lia.
Qed.

Lemma bincount_nth (labels : list nat) (c count : nat) :
  nth_error (bincount labels) c = Some count ->
  count = count_occ Nat.eq_dec labels c.
Proof.
  unfold bincount. intro H.
  rewrite nth_error_map in H.
  destruct (nth_error (seq 0 _) c) as [n|] eqn:E; simpl in H; [|discriminate].
  assert (Hc : (c < List.length (seq 0 (match labels with [] => 0 | _ => S (list_max labels) end)))%nat).
  { apply nth_error_Some. congruence. }
  rewrite length_seq in Hc.
  rewrite nth_error_nth' with (d := O) in E by (rewrite length_seq; exact Hc).
  rewrite seq_nth in E by exact Hc. simpl in E. congruence.
Qed.

Lemma bincount_length_le (labels : list nat) (k : nat) :
  Forall (fun l => l < k)%nat labels -> (List.length (bincount labels) <= k)%nat.
Proof.
  intro H. rewrite bincount_length. destruct labels as [|x l]; [lia|].
  assert (Hm : (list_max (x :: l) <= k - 1)%nat).
  { apply list_max_le. eapply Forall_impl; [|exact H]. simpl; intros; lia. }
  inversion H; subst. lia.
Qed.

Lemma bincount_length_top (labels : list nat) (k : nat) :
  Forall (fun l => l < k)%nat labels -> In (k - 1)%nat labels ->
  List.length (bincount labels) = k.
Proof.
  intros H Hin. pose proof (bincount_length_le labels k H) as Hle.
  rewrite bincount_length in *. destruct labels as [|x l]; [inversion Hin|].
  assert (Hm : Forall (fun j => j <= list_max (x :: l))%nat (x :: l))
    by (apply list_max_le; lia).
  rewrite Forall_forall in Hm. specialize (Hm _ Hin).
  rewrite Forall_forall in H. specialize (H _ Hin). lia.
Qed.

(** *** argsort *)

Lemma insert_index_perm (v : list nat) (i : nat) (acc : list nat) :
  Permutation (RefLibs.insert_index v i acc) (i :: acc).
Proof.
  induction acc as [|j t IH]; simpl; [reflexivity|].
  destruct (nth i v O <? nth j v O)%nat; [reflexivity|].
  rewrite IH. apply perm_swap.
Qed.

Lemma insert_index_sorted (v : list nat) (i : nat) (acc : list nat) :
  StronglySorted (key_index_lt v) acc ->
  Forall (fun j => j < i)%nat acc ->
  StronglySorted (key_index_lt v) (RefLibs.insert_index v i acc).
Proof.
  induction acc as [|j t IH]; intros Hs Hlt; simpl.
  - constructor; constructor.
  - inversion Hs as [|? ? Hst Hjt]; subst.
    inversion Hlt as [|? ? Hji Htlt]; subst.
    destruct (nth i v O <? nth j v O)%nat eqn:E.
    + apply Nat.ltb_lt in E. constructor; [exact Hs|].
      constructor; [left; exact E|].
      rewrite Forall_forall in Hjt |- *. intros x Hx.
      specialize (Hjt x Hx). unfold key_index_lt, key in *. lia.
    + apply Nat.ltb_ge in E. constructor; [apply IH; assumption|].
      eapply Permutation_Forall; [symmetry; apply insert_index_perm|].
      constructor; [|exact Hjt].
      unfold key_index_lt, key. lia.
Qed.

Lemma fold_insert_spec (v : list nat) (m a : nat) (acc : list nat) :
  StronglySorted (key_index_lt v) acc ->
  Forall (fun j => j < a)%nat acc ->
  let out := fold_left (fun acc i => RefLibs.insert_index v i acc) (seq a m) acc in
  StronglySorted (key_index_lt v) out /\ Permutation out (seq a m ++ acc).
Proof.
  revert a acc; induction m as [|m IH]; intros a acc Hs Hlt; simpl.
  - split; [exact Hs | reflexivity].
  - destruct (IH (S a) (RefLibs.insert_index v a acc)) as [H1 H2].
    + apply insert_index_sorted; assumption.
    + eapply Permutation_Forall; [symmetry; apply insert_index_perm|].
      constructor; [lia|]. eapply Forall_impl; [|exact Hlt]. simpl; intros; lia.
    + split; [exact H1|]. rewrite H2.
      rewrite insert_index_perm. symmetry. apply Permutation_middle.
Qed.

Lemma insertion_argsort_sorted (v : list nat) :
  StronglySorted (key_index_lt v) (RefLibs.insertion_argsort v).
Proof.
  apply (fold_insert_spec v (List.length v) 0 []); constructor.
Qed.

Lemma insertion_argsort_perm (v : list nat) :
  Permutation (RefLibs.insertion_argsort v) (seq 0 (List.length v)).
Proof.
  destruct (fold_insert_spec v (List.length v) 0 []) as [_ H]; try constructor.
  rewrite app_nil_r in H. exact H.
Qed.

Lemma StronglySorted_snoc {A} (R : A -> A -> Prop) (l : list A) (x : A) :
  StronglySorted R l -> Forall (fun y => R y x) l -> StronglySorted R (l ++ [x]).
Proof.
  induction l as [|a l IH]; intros Hs Hx; simpl.
  - constructor; constructor.
  - inversion Hs; subst. inversion Hx; subst.
    constructor; [apply IH; assumption|].
    apply Forall_app. split; [assumption | constructor; [assumption | constructor]].
Qed.

Lemma StronglySorted_rev {A} (R : A -> A -> Prop) (l : list A) :
  StronglySorted R l -> StronglySorted (fun a b => R b a) (rev l).
Proof.
  induction 1 as [|a l Hs IH Ha]; simpl; [constructor|].
  apply StronglySorted_snoc; [exact IH|].
  apply Forall_rev. exact Ha.
Qed.

Lemma StronglySorted_nth_error {A} (R : A -> A -> Prop) (l : list A) :
  StronglySorted R l ->
  forall i j a b, (i < j)%nat ->
    nth_error l i = Some a -> nth_error l j = Some b -> R a b.
Proof.
  induction 1 as [|x l Hs IH Hx]; intros i j a b Hij Ha Hb.
  - destruct i; discriminate.
  - destruct j as [|j]; [lia|]. simpl in Hb.
    destruct i as [|i]; simpl in Ha.
    + injection Ha as <-. rewrite Forall_forall in Hx.
      apply Hx. eapply nth_error_In; eassumption.
    + apply (IH i j); [lia | assumption | assumption].
Qed.


Lemma is_permutation_of_range_perm (idx : list nat) (n : nat) :
  is_permutation_of_range idx n = true -> Permutation idx (seq 0 n).
Proof.
  unfold is_permutation_of_range. intro H.
  apply andb_prop in H. destruct H as [Hlen Hall].
  apply Nat.eqb_eq in Hlen. rewrite forallb_forall in Hall.
  symmetry. apply NoDup_Permutation_bis.
  - apply seq_NoDup.
  - rewrite length_seq. lia.
  - intros i Hi. specialize (Hall i Hi).
    apply existsb_exists in Hall. destruct Hall as (x & Hx & E).
    apply Nat.eqb_eq in E. subst x. exact Hx.
Qed.

Lemma adjacent_sorted (before : nat -> nat -> bool) (R : nat -> nat -> Prop)
    (l : list nat) :
  (forall a b, before a b = true -> R a b) ->
  (forall a b c, R a b -> R b c -> R a c) ->
  adjacent before l = true -> StronglySorted R l.
Proof.
  intros Hb Ht H. apply Sorted_StronglySorted.
  - intros a b c. apply Ht.
  - induction l as [|a t IH]; [constructor|].
    destruct t as [|b t'].
    + constructor; constructor.
    + simpl in H. apply andb_prop in H. destruct H as [Hab Ht'].
      constructor; [apply IH; exact Ht'|]. constructor. apply Hb. exact Hab.
Qed.

Lemma argsort_ok_perm (v idx : list nat) :
  argsort_ok v idx = true -> Permutation idx (seq 0 (List.length v)).
Proof.
  unfold argsort_ok. intro H. apply andb_prop in H.
  apply is_permutation_of_range_perm. tauto.
Qed.

Lemma argsort_ok_sorted (v idx : list nat) :
  argsort_ok v idx = true ->
  StronglySorted (fun i j => key v i <= key v j)%nat idx.
Proof.
  unfold argsort_ok. intro H. apply andb_prop in H. destruct H as [_ H].
  eapply adjacent_sorted; [| |exact H].
  - intros a b E. apply Nat.leb_le. exact E.
  - intros a b c. lia.
Qed.


(** *** indexing *)

Lemma take_Forall2 {A} (a : list A) (idx : list nat) (rows : list A) :
  take a idx = Ok rows ->
  Forall2 (fun i x => nth_error a i = Some x) idx rows.
Proof.
  revert rows; induction idx as [|i rest IH]; intros rows H; simpl in H.
  - injection H as <-. constructor.
  - destruct (nth_error a i) as [x|] eqn:E; [|discriminate].
    destruct (take a rest) as [xs|e]; [|discriminate].
    injection H as <-. constructor; [exact E | apply IH; reflexivity].
Qed.

Lemma take_map {A B} (f : A -> B) (a : list A) (idx : list nat) :
  take (map f a) idx
  = match take a idx with
    | Ok xs => Ok (map f xs)
    | Raise e => Raise e
    end.
Proof.
  induction idx as [|i rest IH]; simpl; [reflexivity|].
  rewrite nth_error_map. destruct (nth_error a i); simpl; [|reflexivity].
  rewrite IH. destruct (take a rest); reflexivity.
Qed.

End NpFacts.

Module UniqueFacts.

Import Np.

Lemma pixel_compare_eq (p q : pixel) : pixel_compare p q = Eq -> p = q.
Proof.
  destruct p as [[r1 g1] b1], q as [[r2 g2] b2]. unfold pixel_compare.
  destruct (Z.compare_spec r1 r2); try discriminate.
  destruct (Z.compare_spec g1 g2); try discriminate.
  destruct (Z.compare_spec b1 b2); try discriminate.
  intros _. congruence.
Qed.

Lemma pixel_lt_iff (r1 g1 b1 r2 g2 b2 : Z) :
  pixel_lt (r1, g1, b1) (r2, g2, b2) <->
  r1 < r2 \/ (r1 = r2 /\ (g1 < g2 \/ (g1 = g2 /\ b1 < b2))).
Proof.
  unfold pixel_lt, pixel_compare.
  destruct (Z.compare_spec r1 r2); destruct (Z.compare_spec g1 g2);
    destruct (Z.compare_spec b1 b2); split; intro; try discriminate; try lia;
    reflexivity.
Qed.

Lemma pixel_gt_lt (p q : pixel) : pixel_compare p q = Gt -> pixel_lt q p.
Proof.
  destruct p as [[r1 g1] b1], q as [[r2 g2] b2]. intro H.
  apply pixel_lt_iff. revert H. unfold pixel_compare.
  destruct (Z.compare_spec r1 r2); destruct (Z.compare_spec g1 g2);
    destruct (Z.compare_spec b1 b2); intro; try discriminate; lia.
Qed.

Lemma pixel_lt_trans (p q r : pixel) : pixel_lt p q -> pixel_lt q r -> pixel_lt p r.
Proof.
  destruct p as [[r1 g1] b1], q as [[r2 g2] b2], r as [[r3 g3] b3].
  rewrite !pixel_lt_iff. lia.
Qed.

Lemma pixel_lt_irrefl (p : pixel) : ~ pixel_lt p p.
Proof. destruct p as [[r g] b]. rewrite pixel_lt_iff. lia. Qed.

Lemma insert_unique_In (p x : pixel) (l : list pixel) :
  In x (insert_unique p l) <-> x = p \/ In x l.
Proof.
  induction l as [|q t IH]; simpl.
  - intuition congruence.
  - destruct (pixel_compare p q) eqn:E; simpl.
    + apply pixel_compare_eq in E. subst q. intuition congruence.
    + intuition congruence.
    + rewrite IH. intuition congruence.
Qed.

Lemma insert_unique_sorted (p : pixel) (l : list pixel) :
  StronglySorted pixel_lt l -> StronglySorted pixel_lt (insert_unique p l).
Proof.
  induction 1 as [|q t Hs IH Hq]; simpl.
  - constructor; constructor.
  - destruct (pixel_compare p q) eqn:E.
    + constructor; assumption.
    + constructor; [constructor; assumption|].
      constructor; [exact E|].
      eapply Forall_impl; [|exact Hq]. intros a Ha.
      eapply pixel_lt_trans; [exact E | exact Ha].
    + constructor; [exact IH|].
      apply Forall_forall. intros a Ha. apply insert_unique_In in Ha.
      destruct Ha as [->|Ha].
      * apply pixel_gt_lt. exact E.
      * rewrite Forall_forall in Hq. apply Hq. exact Ha.
Qed.

Lemma unique_sorted (pixels : list pixel) : StronglySorted pixel_lt (unique pixels).
Proof.
  induction pixels as [|p l IH]; simpl; [constructor|].
  apply insert_unique_sorted. exact IH.
Qed.

Lemma unique_In (pixels : list pixel) (x : pixel) :
  In x (unique pixels) <-> In x pixels.
Proof.
  induction pixels as [|p l IH]; simpl; [reflexivity|].
  rewrite insert_unique_In, IH. intuition congruence.
Qed.

Lemma sorted_NoDup (l : list pixel) : StronglySorted pixel_lt l -> NoDup l.
Proof.
  induction 1 as [|q t Hs IH Hq]; constructor; [|exact IH].
  intro Hin. rewrite Forall_forall in Hq.
  exact (pixel_lt_irrefl q (Hq q Hin)).
Qed.

(** [np.unique] lists every colour of the image once: its length is the
    number of distinct colours. *)
Lemma unique_distinct (pixels : list pixel) :
  NoDup (unique pixels) /\
  (forall x, In x (unique pixels) <-> In x pixels) /\
  (List.length (unique pixels) <= List.length pixels)%nat.
Proof.
  split; [apply sorted_NoDup, unique_sorted|].
  split; [apply unique_In|].
  apply NoDup_incl_length; [apply sorted_NoDup, unique_sorted|].
  intros x Hx. apply unique_In. exact Hx.
Qed.

End UniqueFacts.

(** ** The pipeline, stage by stage *)

Module Pipeline.

Import NpFacts.

Lemma Forall2_of_nth_error {A B} (R : A -> B -> Prop) (l1 : list A) (l2 : list B) :
  List.length l1 = List.length l2 ->
  (forall k a b, nth_error l1 k = Some a -> nth_error l2 k = Some b -> R a b) ->
  Forall2 R l1 l2.
Proof.
  revert l2; induction l1 as [|a l1 IH]; intros [|b l2] Hlen H;
    try discriminate; constructor.
  - apply (H O); reflexivity.
  - apply IH; [simpl in Hlen; lia|].
    intros k x y Hx Hy. apply (H (S k)); assumption.
Qed.

Lemma Forall2_nth_error {A B} (R : A -> B -> Prop) (l1 : list A) (l2 : list B) :
  Forall2 R l1 l2 ->
  forall k a b, nth_error l1 k = Some a -> nth_error l2 k = Some b -> R a b.
Proof.
  induction 1 as [|x y l1 l2 HR HF IH]; intros k a b Ha Hb.
  - destruct k; discriminate.
  - destruct k as [|k]; simpl in *.
    + congruence.
    + eapply IH; eassumption.
Qed.

Lemma format_loop_spec (cc si : list nat) (rows : list pixel) :
  forall (i : nat) (acc p : Palette),
    format_loop cc si i rows acc = Ok p ->
    exists es, p = (acc ++ es)%list /\
      List.length es = List.length rows /\
      forall k row e, nth_error rows k = Some row -> nth_error es k = Some e ->
        palette_entry cc si (i + k) row = Ok e.
Proof.
  induction rows as [|row rest IH]; intros i acc p H; simpl in H.
  - injection H as <-. exists []. rewrite app_nil_r.
    split; [reflexivity|]. split; [reflexivity|].
    intros k ? ? Hk. destruct k; discriminate.
  - destruct (palette_entry cc si i row) as [entry|e] eqn:E; [|discriminate].
    destruct (IH _ _ _ H) as (es & -> & Hlen & Hk).
    exists (entry :: es). rewrite <- app_assoc. split; [reflexivity|].
    split; [simpl; lia|].
    intros [|k] r e Hr He; simpl in Hr, He.
    + injection Hr as <-. injection He as <-. rewrite Nat.add_0_r. exact E.
    + replace (i + S k)%nat with (S i + k)%nat by lia. eapply Hk; eassumption.
Qed.

(** The body of the [try], stage by stage. *)
Lemma extract_palette_try_eq (L : Libs) (f : string) (n : Z) (w : World) :
  extract_palette_try L f n w =
  match Image_open L f with
  | Raise e => (Raise e, w)
  | Ok img =>
      match fit_of L n (pixels_of L img) with
      | Raise e => (Raise e, w)
      | Ok fitted =>
          match Np.take (map Np.astype_int_row (cluster_centers_ fitted))
                  (sorted_indices L fitted) with
          | Raise e => (Raise e, w)
          | Ok rows =>
              (format_loop (color_counts fitted) (sorted_indices L fitted) 0 rows [], w)
          end
      end
  end.
Proof.
  unfold extract_palette_try, bind, lift, KMeans_fit, fit_of, pixels_of.
  destruct (Image_open L f) as [img|e]; [|reflexivity].
  cbn [random_state make_kmeans].
  destruct (fst (kmeans_fit L _ _ _)) as [fitted|e]; [|reflexivity].
  destruct (Np.take _ _) as [rows|e]; reflexivity.
Qed.

Lemma extract_palette_inv (L : Libs) (f : string) (n : Z) (w : World) (p : Palette) :
  fst (extract_palette L f n w) = Some p ->
  exists img fitted,
    Image_open L f = Ok img /\
    fit_of L n (pixels_of L img) = Ok fitted /\
    Forall2 (cluster_entry fitted) (sorted_indices L fitted) p.
Proof.
  unfold extract_palette. rewrite extract_palette_try_eq.
  destruct (Image_open L f) as [img|e] eqn:Ei; [|discriminate].
  destruct (fit_of L n (pixels_of L img)) as [fitted|e] eqn:Ef; [|discriminate].
  rewrite take_map.
  destruct (Np.take (cluster_centers_ fitted) (sorted_indices L fitted))
    as [cs|e] eqn:Et; [|discriminate].
  destruct (format_loop _ _ _ _ _) as [q|e] eqn:El; [|discriminate].
  simpl. intro H; injection H as <-.
  exists img, fitted. split; [reflexivity|]. split; [exact Ef|].
  apply take_Forall2 in Et.
  apply format_loop_spec in El. destruct El as (es & -> & Hlen & Hk).
  simpl. rewrite length_map in Hlen.
  pose proof (Forall2_length Et) as Hlen'.
  apply Forall2_of_nth_error; [lia|].
  intros k c e Hc He.
  destruct (nth_error cs k) as [centre|] eqn:Ec.
  2:{ apply nth_error_None in Ec. assert (nth_error es k <> None) by congruence.
      apply nth_error_Some in H. lia. }
  specialize (Hk k (Np.astype_int_row centre) e).
  rewrite nth_error_map, Ec in Hk. specialize (Hk eq_refl He).
  unfold palette_entry, Np.item in Hk. simpl in Hk. rewrite Hc in Hk.
  destruct (nth_error (color_counts fitted) c) as [count|] eqn:Ecount; [|discriminate].
  injection Hk as <-.
  exists centre, count. split; [|split; [exact Ecount | reflexivity]].
  eapply (Forall2_nth_error _ _ _ Et); eassumption.
Qed.

End Pipeline.

(** ** Facts about the strings *)

Module FmtFacts.

Import Valid.










End FmtFacts.

(** ** Facts about hue, saturation and lightness *)

Module HslFacts.

Import Colour.
Local Open Scope Q_scope.















End HslFacts.

Module SampleRuns.

Import Samples.

Lemma open_a : Image_open RefLibs.libs file_a = Ok image_a.
Proof. vm_compute. reflexivity. Qed.

Lemma fit_a : fit_of RefLibs.libs 3 (pixels_of RefLibs.libs image_a) = Ok fitted_a.
Proof. vm_compute. reflexivity. Qed.

Lemma run_a : extract_palette RefLibs.libs file_a 3 RefLibs.w0 = (Some palette_a, RefLibs.w0).
Proof. vm_compute. reflexivity. Qed.

Lemma open_b : Image_open RefLibs.libs file_b = Ok image_b.
Proof. vm_compute. reflexivity. Qed.

Lemma fit_b (n : Z) : n = 1 \/ n = 10 ->
  fit_of RefLibs.libs n (pixels_of RefLibs.libs image_b) = Ok fitted_b.
Proof. intros [-> | ->]; vm_compute; reflexivity. Qed.

Lemma run_b (n : Z) : n = 1 \/ n = 10 ->
  extract_palette RefLibs.libs file_b n RefLibs.w0 = (Some palette_b, RefLibs.w0).
Proof. intros [-> | ->]; vm_compute; reflexivity. Qed.

(** On both samples the index sort is a valid and a stable one. *)
Lemma argsort_a :
  argsort_call_ok RefLibs.libs fitted_a = true /\
  argsort_call_stable RefLibs.libs fitted_a = true.
Proof. split; vm_compute; reflexivity. Qed.

Lemma argsort_b :
  argsort_call_ok RefLibs.libs fitted_b = true /\
  argsort_call_stable RefLibs.libs fitted_b = true.
Proof. split; vm_compute; reflexivity. Qed.

Lemma run_text :
  extract_palette RefLibs.libs "not an image" 10 RefLibs.w0
  = (None, {| np_random := 0%N;
              stdout := ["An error occurred during color extraction: cannot identify image file"] |}).
Proof. vm_compute. reflexivity. Qed.

End SampleRuns.

(** ** Properties of [extract_palette] *)

Import NpFacts Pipeline Samples.

Lemma map_nth_seq {A} (l : list A) (d : A) :
  map (fun i => nth i l d) (seq 0 (List.length l)) = l.
Proof.
  induction l as [|a l IH]; [reflexivity|].
  simpl. f_equal. rewrite <- seq_shift, map_map. exact IH.
Qed.

Lemma sorted_indices_perm (L : Libs) (fitted : Fitted) :
  argsort_call_ok L fitted = true ->
  Permutation (sorted_indices L fitted) (seq 0 (List.length (color_counts fitted))).
Proof.
  intro H. unfold sorted_indices. rewrite <- Permutation_rev.
  apply argsort_ok_perm. exact H.
Qed.

Lemma sorted_indices_descending (L : Libs) (fitted : Fitted) :
  argsort_call_ok L fitted = true ->
  StronglySorted (fun i j => nth j (color_counts fitted) O <= nth i (color_counts fitted) O)%nat
    (sorted_indices L fitted).
Proof.
  intro H. unfold sorted_indices.
  apply (StronglySorted_rev _ _ (argsort_ok_sorted _ _ H)).
Qed.


Lemma sorted_indices_length (L : Libs) (fitted : Fitted) :
  argsort_call_ok L fitted = true ->
  List.length (sorted_indices L fitted) = List.length (color_counts fitted).
Proof.
  intro H. rewrite (Permutation_length (sorted_indices_perm L fitted H)).
  apply length_seq.
Qed.

Lemma cluster_entry_frequency (fitted : Fitted) (c : nat) (e : PaletteEntry) :
  cluster_entry fitted c e ->
  frequency e = Z.of_nat (nth c (color_counts fitted) O).
Proof.
  intros (centre & count & _ & Hc & ->). simpl.
  rewrite (nth_error_nth _ _ _ Hc). reflexivity.
Qed.

Lemma frequencies_of_ranking (fitted : Fitted) (idx : list nat) (p : Palette) :
  Forall2 (cluster_entry fitted) idx p ->
  total_frequency p
  = Z.of_nat (list_sum (map (fun c => nth c (color_counts fitted) O) idx)).
Proof.
  induction 1 as [|c e idx p Hce HF IH]; [reflexivity|].
  unfold total_frequency in *. simpl. rewrite IH.
  rewrite (cluster_entry_frequency _ _ _ Hce). lia.
Qed.

Lemma Forall2_nth_error_r {A B} (R : A -> B -> Prop) (l1 : list A) (l2 : list B) :
  Forall2 R l1 l2 ->
  forall k b, nth_error l2 k = Some b ->
    exists a, nth_error l1 k = Some a /\ R a b.
Proof.
  induction 1 as [|x y l1 l2 HR HF IH]; intros k b Hb.
  - destruct k; discriminate.
  - destruct k as [|k]; simpl in *.
    + injection Hb as <-. exists x. split; [reflexivity | exact HR].
    + apply IH. exact Hb.
Qed.

(** A successful run with the image and the fit it went through. *)
Lemma run_inv (L : Libs) (f : string) (n : Z) (w : World) (p : Palette)
    (img : Image) (fitted : Fitted) :
  fst (extract_palette L f n w) = Some p ->
  Image_open L f = Ok img ->
  fit_of L n (pixels_of L img) = Ok fitted ->
  Forall2 (cluster_entry fitted) (sorted_indices L fitted) p.
Proof.
  intros Hp Hi Hf.
  destruct (extract_palette_inv _ _ _ _ _ Hp) as (img' & fitted' & Hi' & Hf' & HF).
  rewrite Hi in Hi'. injection Hi' as <-.
  rewrite Hf in Hf'. injection Hf' as <-. exact HF.
Qed.


(** C4: in a returned palette an earlier entry never has a smaller
    frequency than a later one, [np.argsort] returning the indices by
    ascending count. *)
Theorem rank_monotonicity (L : Libs) (f : string) (n : Z) (w : World)
    (p : Palette) (img : Image) (fitted : Fitted)
    (i j : nat) (ei ej : PaletteEntry) :
  fst (extract_palette L f n w) = Some p ->
  Image_open L f = Ok img ->
  fit_of L n (pixels_of L img) = Ok fitted ->
  argsort_call_ok L fitted = true ->
  (i < j)%nat ->
  nth_error p i = Some ei ->
  nth_error p j = Some ej ->
  frequency ej <= frequency ei.
Proof.
  intros Hp Himg Hf Hsort Hij Hi Hj.
  pose proof (run_inv _ _ _ _ _ _ _ Hp Himg Hf) as HF.
  destruct (Forall2_nth_error_r _ _ _ HF _ _ Hi) as (a & Ha & Hea).
  destruct (Forall2_nth_error_r _ _ _ HF _ _ Hj) as (b & Hb & Heb).
  rewrite (cluster_entry_frequency _ _ _ Hea), (cluster_entry_frequency _ _ _ Heb).
  pose proof (StronglySorted_nth_error _ _ (sorted_indices_descending L fitted Hsort)
                i j a b Hij Ha Hb) as H.
  simpl in H. lia.
Qed.


(** C2: the returned value does not depend on the state of numpy's global
    generator or on anything printed before, a call leaves that generator
    as it found it, and so a second call returns what the first did. *)
Theorem determinism (L : Libs) (f : string) (n : Z) (w1 w2 : World) :
  fst (extract_palette L f n w1) = fst (extract_palette L f n w2) /\
  np_random (snd (extract_palette L f n w1)) = np_random w1 /\
  fst (extract_palette L f n (snd (extract_palette L f n w1)))
  = fst (extract_palette L f n w1).
Proof.
  assert (H : forall w,
    fst (extract_palette L f n w)
    = match fst (extract_palette_try L f n {| np_random := 0%N; stdout := [] |}) with
      | Ok q => Some q
      | Raise _ => None
      end /\
    np_random (snd (extract_palette L f n w)) = np_random w).
  { intro w. unfold extract_palette. rewrite !extract_palette_try_eq.
    destruct (Image_open L f) as [img|e]; [|split; reflexivity].
    destruct (fit_of L n (pixels_of L img)) as [fitted|e]; [|split; reflexivity].
    destruct (Np.take _ _) as [rows|e]; [|split; reflexivity].
    destruct (format_loop _ _ _ _ _) as [q|e]; split; reflexivity. }
  split; [|split].
  - rewrite (proj1 (H w1)), (proj1 (H w2)). reflexivity.
  - apply H.
  - rewrite (proj1 (H _)), (proj1 (H w1)). reflexivity.
Qed.





Lemma astype_int_toward_zero (x : Q) : Np.astype_int x = toward_zero x.
Proof.
  destruct x as [n d]. unfold Np.astype_int, toward_zero, Qle_bool, Qceiling, Qfloor.
  simpl. rewrite Z.mul_1_r.
  destruct (0 <=? n) eqn:E.
  - apply Z.leb_le in E. apply Z.quot_div_nonneg; lia.
  - apply Z.leb_gt in E.
    rewrite <- (Z.opp_involutive n) at 1. rewrite Z.quot_opp_l by lia.
    rewrite Z.quot_div_nonneg by lia. reflexivity.
Qed.

(** A channel outside the byte range goes through as it is. *)
Lemma astype_int_no_clamp :
  hex_code (Np.astype_int_row (300, - (3 # 2), 0)%Q) = "#12C-100" /\
  rgb_str (Np.astype_int_row (300, - (3 # 2), 0)%Q) = "rgb(300, -1, 0)".
Proof. vm_compute. split; reflexivity. Qed.

(** C5, as the code has it: every channel of a centroid is converted by
    dropping its fraction (toward zero), with no clamping, and the three
    strings of an entry are all written from the channels so converted. *)
Theorem centroid_conversion (L : Libs) (f : string) (n : Z) (w : World)
    (p : Palette) (img : Image) (fitted : Fitted) :
  fst (extract_palette L f n w) = Some p ->
  Image_open L f = Ok img ->
  fit_of L n (pixels_of L img) = Ok fitted ->
  Forall2 (derived_with toward_zero fitted) (sorted_indices L fitted) p.
Proof.
  intros Hp Hi Hf.
  pose proof (run_inv _ _ _ _ _ _ _ Hp Hi Hf) as HF.
  eapply Forall2_impl; [|exact HF].
  intros c e (centre & count & Hc & _ & ->).
  destruct centre as [[r g] b]. exists r, g, b.
  split; [exact Hc|]. unfold entry_of, Np.astype_int_row.
  rewrite !astype_int_toward_zero. simpl. repeat split.
Qed.

(** C8: the clustering routine is consulted once, on all the samples of the
    resized image (duplicates included) with the bounded cluster count, so a
    routine that agrees with the library's there gives the same result; the
    distinct samples enter through their number alone; and the frequency of
    an entry is the number of samples labelled with its cluster. *)
Theorem clustering_input (L : Libs) (f : string) (n : Z) (w : World) (img : Image) :
  Image_open L f = Ok img ->
  let pixels := pixels_of L img in
  let kmeans := make_kmeans (Z.max 3 (Z.min (Z.min n (len (Np.unique pixels))) 15)) in
  (forall fit',
     fst (fit' kmeans (RandomState_seed L 42) pixels)
     = fst (kmeans_fit L kmeans (RandomState_seed L 42) pixels) ->
     extract_palette (with_fit L fit') f n w = extract_palette L f n w) /\
  (forall p fitted,
     fst (extract_palette L f n w) = Some p ->
     fst (kmeans_fit L kmeans (RandomState_seed L 42) pixels) = Ok fitted ->
     Forall2 (fun c e =>
                frequency e = Z.of_nat (count_occ Nat.eq_dec (labels_ fitted) c))
             (sorted_indices L fitted) p).
Proof.
  intros Hi pixels kmeans. split.
  - intros fit' Hagree. unfold extract_palette.
    rewrite !extract_palette_try_eq. simpl Image_open. rewrite Hi.
    unfold fit_of, pixels_of, sorted_indices. simpl. fold (pixels_of L img). fold pixels.
    unfold actual_num_colors. fold kmeans. rewrite Hagree. reflexivity.
  - intros p fitted Hp Hf.
    pose proof (run_inv _ _ _ _ _ _ _ Hp Hi Hf) as HF.
    eapply Forall2_impl; [|exact HF].
    intros c e (centre & count & _ & Hc & ->). simpl.
    f_equal. apply bincount_nth. exact Hc.
Qed.

(** C9: when the library cannot decode the image, the function returns
    [None]; and a palette that is returned is complete: one record, with its
    four fields, for every cluster that was ranked. *)
Theorem invalid_image_fails (L : Libs) (f : string) (n : Z) (w : World) :
  (forall e, Image_open L f = Raise e -> fst (extract_palette L f n w) = None) /\
  (forall p, fst (extract_palette L f n w) = Some p ->
     exists img fitted,
       Image_open L f = Ok img /\
       fit_of L n (pixels_of L img) = Ok fitted /\
       List.length p = List.length (sorted_indices L fitted) /\
       Forall2 (cluster_entry fitted) (sorted_indices L fitted) p).
Proof.
  split.
  - intros e He. unfold extract_palette. rewrite extract_palette_try_eq, He.
    reflexivity.
  - intros p Hp.
    destruct (extract_palette_inv _ _ _ _ _ Hp) as (img & fitted & Hi & Hf & HF).
    exists img, fitted. repeat split; try assumption.
    symmetry. apply (Forall2_length HF).
Qed.

(** C10: whatever exception the body raises (from decoding, from the fit,
    from indexing), the call prints one line and returns [None], the same
    value for every exception; so a call returns [None] or a palette, and
    nothing else. *)
Theorem no_exception_escapes (L : Libs) (f : string) (n : Z) (w : World) :
  (forall e w', extract_palette_try L f n w = (Raise e, w') ->
     extract_palette L f n w
     = (None, {| np_random := np_random w';
                 stdout := (stdout w' ++ [error_line e])%list |})) /\
  (forall e, Image_open L f = Raise e -> fst (extract_palette L f n w) = None) /\
  (forall img e, Image_open L f = Ok img ->
     fit_of L n (pixels_of L img) = Raise e ->
     fst (extract_palette L f n w) = None) /\
  (forall img fitted e, Image_open L f = Ok img ->
     fit_of L n (pixels_of L img) = Ok fitted ->
     Np.take (map Np.astype_int_row (cluster_centers_ fitted)) (sorted_indices L fitted)
     = Raise e ->
     fst (extract_palette L f n w) = None) /\
  (fst (extract_palette L f n w) = None \/
   exists p, fst (extract_palette L f n w) = Some p).
Proof.
  split; [|split; [|split; [|split]]].
  - intros e w' H. unfold extract_palette. rewrite H. reflexivity.
  - intros e He. unfold extract_palette. rewrite extract_palette_try_eq, He.
    reflexivity.
  - intros img e Hi Hf. unfold extract_palette.
    rewrite extract_palette_try_eq, Hi, Hf. reflexivity.
  - intros img fitted e Hi Hf Ht. unfold extract_palette.
    rewrite extract_palette_try_eq, Hi, Hf, Ht. reflexivity.
  - destruct (fst (extract_palette L f n w)) as [p|]; [right; exists p|left]; reflexivity.
Qed.






Lemma centroid_conversion_counterexample :
  ~ claimed_conversion RefLibs.libs file_a 3 RefLibs.w0.
Proof.
  intro H.
  assert (HF : Forall2 (derived_with spec_round_clamp fitted_a)
                 (sorted_indices RefLibs.libs fitted_a) palette_a).
  { apply (H palette_a image_a fitted_a); vm_compute; reflexivity. }
  change (sorted_indices RefLibs.libs fitted_a) with [0; 2; 1]%nat in HF.
  unfold palette_a in HF.
  inversion HF as [|c e idx q Hd _]; subst.
  destruct Hd as (r & g & b & Hc & Hhex & _).
  simpl in Hc. injection Hc as <- <- <-.
  vm_compute in Hhex. discriminate Hhex.
Qed.




Lemma rank_monotonicity_witness :
  frequency {| hex := "#C8C8C8"; rgb := "rgb(200, 200, 200)"; hsl := "hsl(0, 0%, 78%)";
               frequency := 1 |}
  <= frequency {| hex := "#000000"; rgb := "rgb(0, 0, 0)"; hsl := "hsl(0, 0%, 0%)";
                  frequency := 3 |}.
Proof.
  apply (rank_monotonicity RefLibs.libs file_a 3 RefLibs.w0 palette_a image_a fitted_a 0 2).
  - vm_compute. reflexivity.
  - vm_compute. reflexivity.
  - vm_compute. reflexivity.
  - vm_compute. reflexivity.
  - lia.
  - reflexivity.
  - reflexivity.
Defined.



Lemma centroid_conversion_witness :
  Forall2 (derived_with toward_zero fitted_a) (sorted_indices RefLibs.libs fitted_a) palette_a.
Proof.
  apply (centroid_conversion RefLibs.libs file_a 3 RefLibs.w0 palette_a image_a fitted_a);
    vm_compute; reflexivity.
Defined.


Lemma clustering_input_witness :
  extract_palette (with_fit RefLibs.libs table_fit_a) file_a 3 RefLibs.w0
  = extract_palette RefLibs.libs file_a 3 RefLibs.w0 /\
  Forall2 (fun c e => frequency e = Z.of_nat (count_occ Nat.eq_dec (labels_ fitted_a) c))
          (sorted_indices RefLibs.libs fitted_a) palette_a.
Proof.
  assert (Hopen : Image_open RefLibs.libs file_a = Ok image_a)
    by (vm_compute; reflexivity).
  pose proof (clustering_input RefLibs.libs file_a 3 RefLibs.w0 image_a Hopen) as H.
  cbv zeta in H. destruct H as [H1 H2]. split.
  - apply (H1 table_fit_a). vm_compute. reflexivity.
  - apply (H2 palette_a fitted_a); vm_compute; reflexivity.
Defined.

Lemma invalid_image_fails_witness :
  fst (extract_palette RefLibs.libs "not an image" 10 RefLibs.w0) = None.
Proof.
  apply (proj1 (invalid_image_fails RefLibs.libs "not an image" 10 RefLibs.w0)
           RefLibs.unidentified).
  vm_compute. reflexivity.
Defined.

Lemma no_exception_escapes_witness :
  extract_palette RefLibs.libs (RefLibs.ppm 1 1 [(12, 34, 56)]) 10 RefLibs.w0
  = (None, {| np_random := 0%N;
              stdout := ["An error occurred during color extraction: n_samples should be >= n_clusters"] |}).
Proof.
  apply (proj1 (no_exception_escapes RefLibs.libs (RefLibs.ppm 1 1 [(12, 34, 56)]) 10
                  RefLibs.w0)
           (Exception "ValueError" "n_samples should be >= n_clusters") RefLibs.w0).
  vm_compute. reflexivity.
Defined.

(** ** Further properties of [extract_palette] *)

Import NpFacts Pipeline UniqueFacts Samples MoreSamples.

Lemma actual_num_colors_clamp (n : Z) (u : list pixel) :
  actual_num_colors n u = actual_num_colors (clamp_request n) u.
Proof. unfold actual_num_colors, clamp_request. lia. Qed.

Lemma extract_palette_same_k (L : Libs) (f : string) (n n' : Z) (w : World) :
  (forall img, Image_open L f = Ok img ->
     actual_num_colors n (Np.unique (pixels_of L img))
     = actual_num_colors n' (Np.unique (pixels_of L img))) ->
  extract_palette L f n w = extract_palette L f n' w.
Proof.
  intro H. unfold extract_palette. rewrite !extract_palette_try_eq.
  destruct (Image_open L f) as [img|e]; [|reflexivity].
  unfold fit_of. rewrite (H img eq_refl). reflexivity.
Qed.

(** X1: a request is only looked at through [max(3, min(num_colors, 15))]:
    any request of 3 or less (zero and negative ones too) gives what 3 gives,
    and any request of 15 or more gives what 15 gives. *)
Theorem request_is_clamped (L : Libs) (f : string) (n : Z) (w : World) :
  extract_palette L f n w = extract_palette L f (clamp_request n) w.
Proof.
  apply extract_palette_same_k. intros img _. apply actual_num_colors_clamp.
Qed.

(** X2: asking for more colours than the resized image has distinct
    colours changes nothing: two requests that both reach that number give
    the same result. *)
Theorem request_saturates (L : Libs) (f : string) (n n' : Z) (w : World)
    (img : Image) :
  Image_open L f = Ok img ->
  len (Np.unique (pixels_of L img)) <= n ->
  len (Np.unique (pixels_of L img)) <= n' ->
  extract_palette L f n w = extract_palette L f n' w.
Proof.
  intros Hi Hn Hn'. apply extract_palette_same_k.
  intros img' Hi'. rewrite Hi in Hi'. injection Hi' as <-.
  unfold actual_num_colors. lia.
Qed.

Lemma unique_length_le (pixels : list pixel) :
  len (Np.unique pixels) <= len pixels.
Proof.
  unfold len. destruct (unique_distinct pixels) as (_ & _ & H). lia.
Qed.

(** X3: the number of clusters asked of k-means is within the number of
    samples exactly when the resized image has at least 3 pixels. *)
Theorem clusters_within_samples (n : Z) (pixels : list pixel) :
  actual_num_colors n (Np.unique pixels) <= len pixels <-> 3 <= len pixels.
Proof.
  pose proof (unique_length_le pixels). unfold actual_num_colors. lia.
Qed.

(** X4: with a k-means that refuses fewer samples than clusters, an image
    whose resized form has fewer than 3 pixels is never given a palette,
    whatever the request: the floor of 3 clusters is above its sample
    count. *)
Theorem tiny_image_fails (L : Libs) (f : string) (n : Z) (w : World) (img : Image) :
  fit_rejects_few_samples L ->
  Image_open L f = Ok img ->
  len (pixels_of L img) < 3 ->
  fst (extract_palette L f n w) = None.
Proof.
  intros Hlib Hi Hsmall. unfold extract_palette.
  rewrite extract_palette_try_eq, Hi.
  destruct (Hlib (make_kmeans (actual_num_colors n (Np.unique (pixels_of L img))))
              (RandomState_seed L 42) (pixels_of L img)) as [e He].
  - simpl. unfold actual_num_colors. lia.
  - unfold fit_of. rewrite He. reflexivity.
Qed.

Lemma palette_length_bins (L : Libs) (fitted : Fitted) (p : Palette) :
  argsort_call_ok L fitted = true ->
  Forall2 (cluster_entry fitted) (sorted_indices L fitted) p ->
  List.length p = List.length (color_counts fitted).
Proof.
  intros Hs HF. rewrite <- (Forall2_length HF). apply sorted_indices_length. exact Hs.
Qed.

(** X5: a returned palette has one entry for every bin of [np.bincount]:
    one more than the largest label the fit assigned.  Clusters numbered
    above that label are left out, so the palette can be shorter than the 3
    clusters asked for. *)
Theorem palette_length_is_top_label (L : Libs) (f : string) (n : Z) (w : World)
    (p : Palette) (img : Image) (fitted : Fitted) :
  fst (extract_palette L f n w) = Some p ->
  Image_open L f = Ok img ->
  fit_of L n (pixels_of L img) = Ok fitted ->
  argsort_call_ok L fitted = true ->
  List.length p = match labels_ fitted with
                  | [] => O
                  | _ => S (list_max (labels_ fitted))
                  end.
Proof.
  intros Hp Hi Hf Hs.
  rewrite (palette_length_bins L fitted p Hs (run_inv _ _ _ _ _ _ _ Hp Hi Hf)).
  unfold color_counts. apply bincount_length.
Qed.

Lemma sum_le_max_times_length (l : list Z) (m : Z) :
  Forall (fun x => x <= m) l ->
  fold_right Z.add 0 l <= m * Z.of_nat (List.length l).
Proof.
  induction 1 as [|x l Hx Hl IH]; simpl fold_right; [simpl; lia|].
  change (List.length (x :: l)) with (S (List.length l)). lia.
Qed.

Lemma total_frequency_conserved (L : Libs) (fitted : Fitted) (p : Palette) :
  argsort_call_ok L fitted = true ->
  Forall2 (cluster_entry fitted) (sorted_indices L fitted) p ->
  total_frequency p = Z.of_nat (List.length (labels_ fitted)).
Proof.
  intros Hs HF. rewrite (frequencies_of_ranking _ _ _ HF).
  rewrite (Permutation_list_sum (Permutation_map _ (sorted_indices_perm L fitted Hs))).
  rewrite map_nth_seq. unfold color_counts. rewrite bincount_sum. reflexivity.
Qed.

Lemma first_entry_is_largest (L : Libs) (fitted : Fitted) (p : Palette)
    (e0 : PaletteEntry) :
  argsort_call_ok L fitted = true ->
  Forall2 (cluster_entry fitted) (sorted_indices L fitted) p ->
  nth_error p 0 = Some e0 ->
  Forall (fun x => x <= frequency e0) (map frequency p).
Proof.
  intros Hs HF H0. apply Forall_forall. intros x Hx.
  apply in_map_iff in Hx. destruct Hx as (e & <- & He).
  apply In_nth_error in He. destruct He as [j Hj].
  destruct j as [|j]; [rewrite H0 in Hj; injection Hj as <-; lia|].
  destruct (Forall2_nth_error_r _ _ _ HF _ _ H0) as (a & Ha & Hea).
  destruct (Forall2_nth_error_r _ _ _ HF _ _ Hj) as (b & Hb & Heb).
  rewrite (cluster_entry_frequency _ _ _ Hea), (cluster_entry_frequency _ _ _ Heb).
  pose proof (StronglySorted_nth_error _ _ (sorted_indices_descending L fitted Hs)
                0 (S j) a b ltac:(lia) Ha Hb) as H.
  simpl in H. lia.
Qed.

(** X6: the first entry of a returned palette covers at least its even
    share of the image: its frequency times the number of entries is at
    least the number of pixels of the resized image. *)
Theorem dominant_share (L : Libs) (f : string) (n : Z) (w : World)
    (p : Palette) (img : Image) (fitted : Fitted) (e0 : PaletteEntry) :
  fst (extract_palette L f n w) = Some p ->
  Image_open L f = Ok img ->
  fit_of L n (pixels_of L img) = Ok fitted ->
  List.length (labels_ fitted) = List.length (pixels_of L img) ->
  argsort_call_ok L fitted = true ->
  nth_error p 0 = Some e0 ->
  len (pixels_of L img) <= frequency e0 * len p.
Proof.
  intros Hp Hi Hf Hlab Hs H0.
  pose proof (run_inv _ _ _ _ _ _ _ Hp Hi Hf) as HF.
  pose proof (total_frequency_conserved L fitted p Hs HF) as Ht.
  pose proof (sum_le_max_times_length _ _ (first_entry_is_largest L fitted p e0 Hs HF H0))
    as Hm.
  rewrite length_map in Hm. unfold total_frequency in Ht. unfold len.
  rewrite <- Hlab. lia.
Qed.



Lemma RefLibs_rejects_few_samples : fit_rejects_few_samples RefLibs.libs.
Proof.
  intros km g X H. simpl. unfold RefLibs.fit.
  replace (List.length X <? Z.to_nat (n_clusters km))%nat with true.
  - eexists. reflexivity.
  - symmetry. apply Nat.ltb_lt. unfold len in H. lia.
Qed.

Lemma request_saturates_witness :
  extract_palette RefLibs.libs file_a 4 RefLibs.w0
  = extract_palette RefLibs.libs file_a 10 RefLibs.w0.
Proof.
  apply (request_saturates RefLibs.libs file_a 4 10 RefLibs.w0 image_a);
    vm_compute; first [reflexivity | discriminate].
Defined.

Lemma tiny_image_fails_witness :
  fst (extract_palette RefLibs.libs file_dot 10 RefLibs.w0) = None.
Proof.
  apply (tiny_image_fails RefLibs.libs file_dot 10 RefLibs.w0 image_dot).
  - exact RefLibs_rejects_few_samples.
  - vm_compute. reflexivity.
  - vm_compute. reflexivity.
Defined.

Lemma palette_length_is_top_label_witness : List.length palette_flat = 1%nat.
Proof.
  apply (palette_length_is_top_label RefLibs.libs file_flat 10 RefLibs.w0
           palette_flat image_flat fitted_flat);
    vm_compute; reflexivity.
Defined.

Lemma dominant_share_witness : 5 <= 3 * 3.
Proof.
  apply (dominant_share RefLibs.libs file_a 3 RefLibs.w0 palette_a image_a fitted_a
           {| hex := "#000000"; rgb := "rgb(0, 0, 0)"; hsl := "hsl(0, 0%, 0%)";
              frequency := 3 |});
    vm_compute; reflexivity.
Defined.


Import NpFacts Pipeline Samples MoreSamples.

(** ** Properties of the HTTP layer *)

Module WebFacts.

Import Web.

(** *** The brace pattern *)

Local Opaque open_brace close_brace.

Lemma occurs_app (c : ascii) (a b : string) :
  occurs c (a ++ b) = occurs c a || occurs c b.
Proof.
  induction a as [|x a IH]; simpl; [reflexivity|].
  rewrite IH. apply orb_assoc.
Qed.

Lemma from_first_open_none (s : string) :
  from_first_open s = None <-> occurs open_brace s = false.
Proof.
  induction s as [|c t IH]; simpl; [tauto|].
  destruct (Ascii.eqb c open_brace); simpl; [split; discriminate | exact IH].
Qed.

Lemma upto_last_close_none (s : string) :
  upto_last_close s = None <-> occurs close_brace s = false.
Proof.
  induction s as [|c t IH]; simpl; [tauto|].
  destruct (upto_last_close t) as [r|].
  - assert (occurs close_brace t <> false) by (intro H; apply IH in H; discriminate).
    destruct (occurs close_brace t); [|congruence].
    rewrite orb_true_r. split; discriminate.
  - rewrite (proj1 IH eq_refl), orb_false_r.
    destruct (Ascii.eqb c close_brace); split; congruence.
Qed.

Lemma from_first_open_app (pre r : string) (t : string) :
  occurs open_brace pre = false ->
  from_first_open (pre ++ String open_brace t) = Some (String open_brace t).
Proof.
  induction pre as [|c pre IH]; simpl; intro H.
  - rewrite Ascii.eqb_refl. reflexivity.
  - apply orb_false_iff in H. destruct H as [Hc Hpre].
    rewrite Hc. apply IH. exact Hpre.
Qed.

Lemma from_first_open_inv (s r : string) :
  from_first_open s = Some r ->
  exists pre t, s = pre ++ r /\ r = String open_brace t /\ occurs open_brace pre = false.
Proof.
  revert r; induction s as [|c s IH]; simpl; intros r H; [discriminate|].
  destruct (Ascii.eqb c open_brace) eqn:E.
  - injection H as <-. apply Ascii.eqb_eq in E. subst c.
    exists EmptyString, s. repeat split.
  - destruct (IH r H) as (pre & t & -> & -> & Hpre).
    exists (String c pre), t. simpl. rewrite E, Hpre. repeat split.
Qed.

Lemma upto_last_close_app (body post : string) :
  occurs close_brace post = false ->
  upto_last_close (body ++ String close_brace post)
  = Some (body ++ String close_brace EmptyString).
Proof.
  intro H. induction body as [|c body IH]; simpl.
  - rewrite (proj2 (upto_last_close_none post) H), Ascii.eqb_refl. reflexivity.
  - rewrite IH. reflexivity.
Qed.

Lemma upto_last_close_inv (s r : string) :
  upto_last_close s = Some r ->
  exists body post,
    s = body ++ String close_brace post /\
    r = body ++ String close_brace EmptyString /\
    occurs close_brace post = false.
Proof.
  revert r; induction s as [|c s IH]; simpl; intros r H; [discriminate|].
  destruct (upto_last_close s) as [r'|] eqn:E.
  - injection H as <-. destruct (IH r' eq_refl) as (body & post & -> & -> & Hpost).
    exists (String c body), post. repeat split. exact Hpost.
  - destruct (Ascii.eqb c close_brace) eqn:Ec; [|discriminate].
    injection H as <-. apply Ascii.eqb_eq in Ec. subst c.
    exists EmptyString, s. repeat split. apply upto_last_close_none. exact E.
Qed.

Lemma re_search_braces_found (pre inner post : string) :
  occurs open_brace pre = false ->
  occurs close_brace post = false ->
  re_search_braces (pre ++ String open_brace (inner ++ String close_brace post))
  = Some (String open_brace (inner ++ String close_brace EmptyString)).
Proof.
  intros Hpre Hpost. unfold re_search_braces.
  rewrite (from_first_open_app pre EmptyString _ Hpre).
  rewrite (upto_last_close_app inner post Hpost). reflexivity.
Qed.

Lemma re_search_braces_inv (s m : string) :
  re_search_braces s = Some m ->
  exists pre inner post,
    s = pre ++ String open_brace (inner ++ String close_brace post) /\
    m = String open_brace (inner ++ String close_brace EmptyString) /\
    occurs open_brace pre = false /\
    occurs close_brace post = false.
Proof.
  unfold re_search_braces.
  destruct (from_first_open s) as [r|] eqn:E; [|discriminate].
  destruct (from_first_open_inv s r E) as (pre & t & -> & -> & Hpre).
  destruct (upto_last_close t) as [r|] eqn:Et; [|discriminate].
  intro H; injection H as <-.
  destruct (upto_last_close_inv t r Et) as (inner & post & -> & -> & Hpost).
  exists pre, inner, post. repeat split; assumption.
Qed.

(** X8: [re.search] with the brace pattern returns the stretch from the
    first opening brace of the text to its last closing brace: it returns [m]
    exactly when the text is a part without opening brace, then [m], then a
    part without closing brace, [m] beginning and ending with a brace.  Text
    around one JSON object (a Markdown fence, a sentence) is dropped; of two
    objects in a row both are kept in one match. *)
Theorem re_search_braces_spec (s m : string) :
  re_search_braces s = Some m <->
  exists pre inner post,
    s = pre ++ String open_brace (inner ++ String close_brace post) /\
    m = String open_brace (inner ++ String close_brace EmptyString) /\
    occurs open_brace pre = false /\
    occurs close_brace post = false.
Proof.
  split.
  - apply re_search_braces_inv.
  - intros (pre & inner & post & -> & -> & Hpre & Hpost).
    apply re_search_braces_found; assumption.
Qed.

Lemma first_open_tail_has_close (a rest : string) (c : ascii) (t : string) :
  from_first_open (a ++ String open_brace rest) = Some (String c t) ->
  occurs close_brace rest = true ->
  occurs close_brace t = true.
Proof.
  induction a as [|x a IH]; simpl; intros H Hrest.
  - rewrite Ascii.eqb_refl in H. injection H as _ <-. exact Hrest.
  - destruct (Ascii.eqb x open_brace).
    + injection H as _ <-. rewrite occurs_app. simpl. rewrite Hrest.
      rewrite !orb_true_r. reflexivity.
    + apply IH; assumption.
Qed.

(** X9: the pattern finds nothing exactly when no opening brace of the
    text has a closing brace somewhere after it. *)
Theorem re_search_braces_none (s : string) :
  re_search_braces s = None <->
  ~ exists a b c, s = a ++ String open_brace (b ++ String close_brace c).
Proof.
  split.
  - intros H (a & b & c & ->). unfold re_search_braces in H.
    destruct (from_first_open _) as [[|x t]|] eqn:E.
    + apply from_first_open_inv in E. destruct E as (? & ? & _ & E & _). discriminate.
    + assert (Ht : occurs close_brace t = true).
      { eapply first_open_tail_has_close; [exact E|].
        rewrite occurs_app. simpl. rewrite Ascii.eqb_refl. apply orb_true_r. }
      destruct (upto_last_close t) eqn:Et; [discriminate|].
      apply upto_last_close_none in Et. congruence.
    + apply from_first_open_none in E. rewrite occurs_app in E. simpl in E.
      rewrite Ascii.eqb_refl in E. rewrite orb_true_r in E. discriminate.
  - intro H. destruct (re_search_braces s) as [m|] eqn:E; [|reflexivity].
    exfalso. apply H. apply re_search_braces_inv in E.
    destruct E as (pre & inner & post & -> & _). exists pre, inner, post. reflexivity.
Qed.

Local Transparent open_brace close_brace.

(** *** POST /api/extract *)

Lemma extract_palette_fst_any_world (L : Libs) (f : string) (n : Z) (w1 w2 : World) :
  fst (extract_palette L f n w1) = fst (extract_palette L f n w2).
Proof.
  unfold extract_palette. rewrite !extract_palette_try_eq.
  destruct (Image_open L f) as [img|e]; [|reflexivity].
  destruct (fit_of L n (pixels_of L img)) as [fitted|e]; [|reflexivity].
  destruct (Np.take _ _) as [rows|e]; [|reflexivity].
  destruct (format_loop _ _ _ _ _) as [q|e]; reflexivity.
Qed.

Lemma extract_api_named (L : Libs) (request : Request) (w : World) (file : FileStorage) :
  lookup "file" (files request) = Some file ->
  filename file <> EmptyString ->
  fst (extract_palette_api (Some (image_to_palette_extract_palette L)) request w)
  = answer_for (fst (extract_palette L (stream file) 10 w)).
Proof.
  intros Hf Hn. unfold extract_palette_api. rewrite Hf.
  apply String.eqb_neq in Hn. rewrite Hn.
  unfold image_to_palette_extract_palette.
  match goal with
  | |- context [extract_palette L (stream file) 10 ?w'] =>
      rewrite (extract_palette_fst_any_world L (stream file) 10 w w');
      destruct (extract_palette L (stream file) 10 w') as [[[|e rest]|] w'']
  end; reflexivity.
Qed.

(** X10: for an upload that has a file name, the answer of POST /api/extract
    is decided by what [extract_palette] returns for the uploaded bytes with
    [num_colors = 10]: 200 with the palette, its length as [colors_found] and
    [optimization] always [basic] when a palette with at least one entry
    comes back, and 500 with the message of line 133 when [None] or an empty
    palette does.  The view's own except clause is never taken: the internal
    server error answer does not occur. *)
Theorem extract_api_response (L : Libs) (request : Request) (w : World)
    (file : FileStorage) :
  lookup "file" (files request) = Some file ->
  filename file <> EmptyString ->
  fst (extract_palette_api (Some (image_to_palette_extract_palette L)) request w)
  = answer_for (fst (extract_palette L (stream file) 10 w)).
Proof. apply extract_api_named. Qed.

(** X11: POST /api/extract answers 400 exactly when the request has no
    part named [file] or the first such part has an empty file name,
    whether or not the image module was loaded and whatever it does. *)
Theorem extract_api_bad_request (app : option extractor) (request : Request) (w : World) :
  status (fst (extract_palette_api app request w)) = 400 <->
  lookup "file" (files request) = None \/
  exists file, lookup "file" (files request) = Some file /\ filename file = EmptyString.
Proof.
  unfold extract_palette_api.
  destruct (lookup "file" (files request)) as [file|].
  2:{ simpl. split; [intros _; left; reflexivity | reflexivity]. }
  destruct (String.eqb (filename file) EmptyString) eqn:E.
  - apply String.eqb_eq in E. simpl. split; [|reflexivity].
    intros _. right. exists file. split; [reflexivity | exact E].
  - apply String.eqb_neq in E.
    assert (Hno : forall r : Response * World, status (fst r) <> 400 ->
              (status (fst r) = 400 <->
               Some file = None \/
               (exists file0, Some file = Some file0 /\ filename file0 = EmptyString))).
    { intros r Hr. split; [congruence|].
      intros [H|(file0 & H & H0)]; [discriminate|]. injection H as <-. contradiction. }
    destruct app as [extract|]; [|apply Hno; simpl; lia].
    match goal with
    | |- context [extract (stream file) 10 ?w'] =>
        destruct (extract (stream file) 10 w') as [[[[|e rest]|]|e] w'']
    end; apply Hno; simpl; lia.
Qed.

(** X12: the form of the request, its [optimize] field included, never
    changes the answer of POST /api/extract; it only shows in the log. *)
Theorem extract_api_ignores_form (L : Libs) (request : Request)
    (other_form : list (string * string)) (w : World) :
  fst (extract_palette_api (Some (image_to_palette_extract_palette L)) request w)
  = fst (extract_palette_api (Some (image_to_palette_extract_palette L))
           {| files := files request; form := other_form |} w).
Proof.
  destruct (lookup "file" (files request)) as [file|] eqn:Hf.
  - destruct (String.eqb (filename file) EmptyString) eqn:E.
    + unfold extract_palette_api. simpl files. rewrite Hf, E. reflexivity.
    + apply String.eqb_neq in E.
      rewrite (extract_api_named L request w file Hf E).
      rewrite (extract_api_named L {| files := files request; form := other_form |}
                 w file Hf E).
      reflexivity.
  - unfold extract_palette_api. simpl files. rewrite Hf. reflexivity.
Qed.



(** X14: an upload that PIL cannot decode is answered 500 with the message
    [Could not process the image]. *)
Theorem extract_api_invalid_image (L : Libs) (request : Request) (w : World)
    (file : FileStorage) (e : exn) :
  lookup "file" (files request) = Some file ->
  filename file <> EmptyString ->
  Image_open L (stream file) = Raise e ->
  fst (extract_palette_api (Some (image_to_palette_extract_palette L)) request w)
  = {| body := JObj [("error", JStr "Could not process the image")]; status := 500 |}.
Proof.
  intros Hfile Hname He.
  rewrite (extract_api_named L request w file Hfile Hname).
  unfold extract_palette. rewrite extract_palette_try_eq, He. reflexivity.
Qed.

(** X15: the image route needs both helper imports: when
    [image_to_palette] imports and [advanced_ai_palette] does not, start-up
    goes on with [extract_palette = None], and every upload with a file name
    is then answered 500, image module not available. *)
Theorem helpers_need_both_imports (L : Libs) (e : exn) (request : Request)
    (file : FileStorage) (w : World) :
  is_ImportError e = true ->
  lookup "file" (files request) = Some file ->
  filename file <> EmptyString ->
  exists w1,
    load_helpers L (Ok tt) (Raise e) w = (Ok None, w1) /\
    forall w2,
      fst (extract_palette_api None request w2)
      = {| body := JObj [("error", JStr "Image processing module not available on server")];
           status := 500 |}.
Proof.
  intros He Hfile Hname. unfold load_helpers. rewrite He.
  eexists. split; [reflexivity|].
  intro w2. unfold extract_palette_api. rewrite Hfile.
  apply String.eqb_neq in Hname. rewrite Hname. reflexivity.
Qed.

(** *** POST /api/generate-from-text *)

(** X16: without a GEMINI_API_KEY in the environment (unset or empty),
    start-up goes on with [gemini_model = None], and every request whose body
    is a JSON object is then answered 503, before its prompt is looked at. *)
Theorem no_key_no_text_api (W : WebLibs) (getenv : string -> option string)
    (members : list (string * json)) (w : World) :
  getenv "GEMINI_API_KEY" = None \/ getenv "GEMINI_API_KEY" = Some EmptyString ->
  exists w1,
    load_gemini_model W getenv w = (Ok None, w1) /\
    forall w2,
      fst (generate_from_text_api W None (JObj members) w2)
      = Ok {| body := JObj [("error",
                             JStr "Text generation model is not available. Check API key.")];
              status := 503 |}.
Proof.
  intro H. unfold load_gemini_model.
  destruct H as [-> | ->]; (eexists; split; [reflexivity|]); intro w2; reflexivity.
Qed.

(** X17: a reply of the model that wraps one JSON object in other text (a
    Markdown fence) is answered 200 with what [json.loads] makes of the
    object alone, whatever it is: the view does not look for a [palette]
    key. *)
Theorem text_api_fenced_reply (W : WebLibs) (model : GenerativeModel)
    (members : list (string * json)) (user_prompt : json) (w : World)
    (text pre inner post : string) (palette_data : json) :
  lookup "prompt" members = Some user_prompt ->
  truthy user_prompt = true ->
  generate_content W model (system_prompt (fstr W user_prompt)) = Ok text ->
  str_strip W text = pre ++ String open_brace (inner ++ String close_brace post) ->
  occurs open_brace pre = false ->
  occurs close_brace post = false ->
  json_loads W (String open_brace (inner ++ String close_brace EmptyString))
  = Ok palette_data ->
  fst (generate_from_text_api W (Some model) (JObj members) w)
  = Ok {| body := palette_data; status := 200 |}.
Proof.
  intros Hp Ht Hg Hs Hpre Hpost Hl.
  unfold generate_from_text_api. rewrite Hp, Ht. simpl negb. cbv iota.
  rewrite Hg.
  assert (Hm : re_search_braces (str_strip W text)
               = Some (String open_brace (inner ++ String close_brace EmptyString))).
  { rewrite Hs. apply re_search_braces_found; assumption. }
  rewrite Hm, Hl. reflexivity.
Qed.

(** X18: for a body that is a JSON object, POST /api/generate-from-text
    always returns an answer, with status 200, 400, 500 or 503, and no
    exception leaves the view; for a body that is anything else (null, a
    list, a string, a number), an AttributeError leaves it. *)
Theorem text_api_answers (W : WebLibs) (gemini_model : option GenerativeModel)
    (data : json) (w : World) :
  match data with
  | JObj _ =>
      exists r, fst (generate_from_text_api W gemini_model data w) = Ok r /\
                In (status r) [200; 400; 500; 503]
  | _ =>
      exists e, fst (generate_from_text_api W gemini_model data w) = Raise e /\
                exn_class e = "AttributeError"
  end.
Proof.
  destruct data as [| b | z | q | s | items | members];
    try (eexists; split; reflexivity).
  unfold generate_from_text_api.
  destruct gemini_model as [model|];
    [|eexists; split; [reflexivity | simpl; intuition]].
  destruct (negb (truthy _)); [eexists; split; [reflexivity | simpl; intuition]|].
  destruct (generate_content W model _) as [text|e];
    [|eexists; split; [reflexivity | simpl; intuition]].
  destruct (re_search_braces _) as [m|];
    [|eexists; split; [reflexivity | simpl; intuition]].
  destruct (json_loads W m) as [v|e]; eexists; split; try reflexivity; simpl; intuition.
Qed.

End WebFacts.

Import Web WebFacts.

Lemma extract_api_response_witness :
  status (fst (extract_palette_api (Some (image_to_palette_extract_palette RefLibs.libs))
                 RefWeb.upload_a RefLibs.w0)) = 200.
Proof.
  rewrite (extract_api_response RefLibs.libs RefWeb.upload_a RefLibs.w0
             {| filename := "a.ppm"; stream := file_a |}).
  - vm_compute. reflexivity.
  - vm_compute. reflexivity.
  - discriminate.
Defined.


Lemma extract_api_invalid_image_witness :
  fst (extract_palette_api (Some (image_to_palette_extract_palette RefLibs.libs))
         RefWeb.upload_text RefLibs.w0)
  = {| body := JObj [("error", JStr "Could not process the image")]; status := 500 |}.
Proof.
  apply (extract_api_invalid_image RefLibs.libs RefWeb.upload_text RefLibs.w0
           {| filename := "notes.txt"; stream := "not an image" |} RefLibs.unidentified).
  - reflexivity.
  - discriminate.
  - vm_compute. reflexivity.
Defined.

Lemma helpers_need_both_imports_witness :
  fst (extract_palette_api None RefWeb.upload_a RefLibs.w0)
  = {| body := JObj [("error", JStr "Image processing module not available on server")];
       status := 500 |}.
Proof.
  destruct (helpers_need_both_imports RefLibs.libs
              (Exception "ModuleNotFoundError" "No module named 'advanced_ai_palette'")
              RefWeb.upload_a {| filename := "a.ppm"; stream := file_a |} RefLibs.w0)
    as (w1 & _ & H).
  - reflexivity.
  - reflexivity.
  - discriminate.
  - apply H.
Defined.

Lemma no_key_no_text_api_witness :
  fst (generate_from_text_api RefWeb.libs None RefWeb.sunset RefLibs.w0)
  = Ok {| body := JObj [("error",
                         JStr "Text generation model is not available. Check API key.")];
          status := 503 |}.
Proof.
  destruct (no_key_no_text_api RefWeb.libs (fun _ => None)
              [("prompt", JStr "sunset over the sea")] RefLibs.w0) as (w1 & _ & H).
  - left. reflexivity.
  - apply H.
Defined.

Lemma text_api_fenced_reply_witness :
  fst (generate_from_text_api RefWeb.libs (Some RefWeb.flash) RefWeb.sunset RefLibs.w0)
  = Ok {| body := JObj []; status := 200 |}.
Proof.
  apply (text_api_fenced_reply RefWeb.libs RefWeb.flash
           [("prompt", JStr "sunset over the sea")] (JStr "sunset over the sea")
           RefLibs.w0 RefWeb.fenced_reply
           (RefWeb.fence ++ "json" ++ nl) EmptyString (nl ++ RefWeb.fence));
    vm_compute; reflexivity.
Defined.
